(** * perception-network-status: the native network monitor

    A shallow embedding of [native/NetworkMonitor.cpp], of the COM sink
    [CNetworkListManagerEvents] and of [QualityToRSSI] from [Utils], with
    the properties of the connectivity subscriber, of the wireless
    hysteresis state machine and of start-up and teardown.

    Conventions.  Machine integers are [Z] with their range written out:
    [ULONG] and [DWORD] are 32 bits unsigned, [int], [LONG] and [HRESULT]
    32 bits signed.  A C pointer or handle that may be [NULL] is an
    [option].  The [double] of [QualityToRSSI] is an IEEE-754 binary64
    value, [spec_float] at precision 53. *)

From Stdlib Require Import ZArith List Bool String Lia.
From Stdlib Require Import Floats.SpecFloat.
Import ListNotations.
Open Scope Z_scope.

(** ** Machine types *)

Module CTypes.

Definition ULONG_MAX : Z := 2 ^ 32 - 1.
Definition INT_MIN : Z := - 2 ^ 31.
Definition INT_MAX : Z := 2 ^ 31 - 1.

Definition is_ULONG (q : Z) : Prop := 0 <= q <= ULONG_MAX.

(** Two's-complement wrap-around of a 32-bit [int]. *)
Definition wrap_int (z : Z) : Z := (z + 2 ^ 31) mod 2 ^ 32 - 2 ^ 31.

(** binary64 *)
Definition prec : Z := 53.
Definition emax : Z := 1024.
Definition double : Type := spec_float.

(** [(double)quality]: an integer below [2^53] converts exactly. *)
Definition double_of_ulong (q : Z) : double := binary_normalize prec emax q 0 false.

(** the literal [2.0] *)
Definition double_2_0 : double := binary_normalize prec emax 2 0 false.

Definition double_div (x y : double) : double := SFdiv prec emax x y.

(** [(int)d]: truncation toward zero.  Out of the range of [int] (and for
    an infinity or a NaN) the conversion instruction [cvttsd2si] yields
    the "integer indefinite" value [INT_MIN]. *)
Definition int_of_double (d : double) : Z :=
  match d with
  | S754_zero _ => 0
  | S754_finite s m e =>
      let mag := if 0 <=? e then Z.shiftl (Zpos m) e else Z.shiftr (Zpos m) (- e) in
      let v := if s then - mag else mag in
      if (INT_MIN <=? v) && (v <=? INT_MAX) then v else INT_MIN
  | _ => INT_MIN
  end.

End CTypes.

(** ** Utils.h / Utils.cpp *)

Module Utils.
Import CTypes.

(** [struct SignalMonitorContext] *)
Record SignalMonitorContext : Type := mkCtx {
  thresholdDrop : Z;
  thresholdRecover : Z;
  isSignalWeak : bool;
  lastQuality : Z
}.

(** The expression of the last [return] of [QualityToRSSI], on its own. *)
Definition rssi_formula (quality : Z) : Z :=
  wrap_int (int_of_double (double_div (double_of_ulong quality) double_2_0) - 100).

(** [int QualityToRSSI(unsigned long quality)] *)
Definition QualityToRSSI (quality : Z) : Z :=
  if quality =? 0 then -100
  else if quality >=? 100 then -50
  else rssi_formula quality.

End Utils.

Import CTypes Utils.

(** ** Constants of the Windows SDK headers

    [winuser.h], [winerror.h], [netlistmgr.h] and [wlanapi.h] are platform
    headers; the values below are the ones they declare. *)

Module Sdk.

Definition WM_USER : Z := 1024.
Definition S_OK : Z := 0.
Definition E_NOINTERFACE : Z := -2147467262.
Definition ERROR_SUCCESS : Z := 0.
Definition ERROR_INVALID_HANDLE : Z := 6.

Definition FAILED (hr : Z) : bool := hr <? 0.
Definition SUCCEEDED (hr : Z) : bool := 0 <=? hr.

(** [enum NLM_CONNECTIVITY] *)
Definition NLM_CONNECTIVITY_DISCONNECTED : Z := 0.
Definition NLM_CONNECTIVITY_IPV4_NOTRAFFIC : Z := 1.
Definition NLM_CONNECTIVITY_IPV6_NOTRAFFIC : Z := 2.
Definition NLM_CONNECTIVITY_IPV4_SUBNET : Z := 16.
Definition NLM_CONNECTIVITY_IPV4_LOCALNETWORK : Z := 32.
Definition NLM_CONNECTIVITY_IPV4_INTERNET : Z := 64.
Definition NLM_CONNECTIVITY_IPV6_SUBNET : Z := 256.
Definition NLM_CONNECTIVITY_IPV6_LOCALNETWORK : Z := 512.
Definition NLM_CONNECTIVITY_IPV6_INTERNET : Z := 1024.

Definition WLAN_NOTIFICATION_SOURCE_NONE : Z := 0.
Definition WLAN_NOTIFICATION_SOURCE_ACM : Z := 8.
Definition WLAN_NOTIFICATION_SOURCE_MSM : Z := 16.

(** [enum WLAN_NOTIFICATION_MSM] *)
Definition wlan_notification_msm_connected : Z := 4.
Definition wlan_notification_msm_signal_quality_change : Z := 8.
Definition wlan_notification_msm_disconnected : Z := 10.

(** [enum WLAN_INTERFACE_STATE] *)
Definition wlan_interface_state_connected : Z := 1.

Definition sizeof_ULONG : Z := 4.

(** [WLAN_NOTIFICATION_DATA]; [pData] is the [ULONG] stored at [*pData]. *)
Record WLAN_NOTIFICATION_DATA : Type := mkNotification {
  NotificationSource : Z;
  NotificationCode : Z;
  dwDataSize : Z;
  pData : Z
}.

End Sdk.

Import Sdk.

(** ** The process: globals, heap, platform registrations and outputs *)

Module Process.

(** What goes to the console: a line is the sequence of the values
    streamed to [std::cout] / [std::wcout] before [std::endl]. *)
Inductive Tok : Type := Str (s : string) | Num (z : Z).
Definition Line : Type := list Tok.

(** A thread message, as [PostThreadMessage] receives it. *)
Record Msg : Type := mkMsg {
  idThread : Z;
  message : Z;
  wParam : Z;
  lParam : Z
}.

(** Calls into the platform and into COM objects that take or drop a
    resource, in the order the program makes them. *)
Inductive Call : Type :=
| CoInitializeEx
| CoCreateInstance
| NLM_QueryInterface
| CPC_FindConnectionPoint
| CP_Advise (sink : nat)
| NLM_GetConnectivity
| CP_Unadvise (cookie : Z)
| NetEvents_Release (obj : nat)
| IUnknown_Release (p : Z)
| CoUninitialize
| WlanOpenHandle
| WlanEnumInterfaces
| WlanQueryInterface
| WlanFreeMemory
| WlanRegisterNotification (h : option Z) (source : Z)
| WlanCloseHandle (h : option Z).

(** A [CNetworkListManagerEvents] allocated by [new]: alive with its
    [m_lRef], or destroyed by [delete this]. *)
Inductive ObjState : Type := Live (m_lRef : Z) | Deleted.

(** The only [SignalMonitorContext] of the program is the global
    [monitorCtx]; a [PVOID pContext] is [nullptr] or its address. *)
Inductive CtxPtr : Type := Addr_monitorCtx.

(** The global variables of NetworkMonitor.cpp. *)
Record Globals : Type := mkGlobals {
  g_mainThreadId : Z;
  g_networkConnected : bool;
  g_pNetworkListManager : option Z;
  g_pCPContainer : option Z;
  g_pConnectPoint : option Z;
  g_pNetEvents : option nat;
  g_dwCookie : Z;
  g_hClient : option Z;
  monitorCtx : SignalMonitorContext
}.

(** What the platform holds for this process. *)
Record Platform : Type := mkPlatform {
  heap : list ObjState;
  advised : list (Z * nat);
  wlan_open : list Z;
  wlan_notify : option (Z * Z)
}.

Record World : Type := mkWorld {
  globals : Globals;
  platform : Platform;
  posted : list Msg;
  console : list Line;
  calls : list Call
}.

(** The state of the process when [main] is entered. *)
Definition initial_globals : Globals :=
  {| g_mainThreadId := 0;
     g_networkConnected := false;
     g_pNetworkListManager := None;
     g_pCPContainer := None;
     g_pConnectPoint := None;
     g_pNetEvents := None;
     g_dwCookie := 0;
     g_hClient := None;
     monitorCtx := mkCtx 40 50 false 100 |}.

Definition initial_world : World :=
  {| globals := initial_globals;
     platform := mkPlatform [] [] [] None;
     posted := [];
     console := [];
     calls := [] |}.

(** *** Field updates *)

Definition set_mainThreadId (v : Z) (g : Globals) : Globals :=
  mkGlobals v (g_networkConnected g) (g_pNetworkListManager g) (g_pCPContainer g)
    (g_pConnectPoint g) (g_pNetEvents g) (g_dwCookie g) (g_hClient g) (monitorCtx g).
Definition set_networkConnected (v : bool) (g : Globals) : Globals :=
  mkGlobals (g_mainThreadId g) v (g_pNetworkListManager g) (g_pCPContainer g)
    (g_pConnectPoint g) (g_pNetEvents g) (g_dwCookie g) (g_hClient g) (monitorCtx g).
Definition set_pNetworkListManager (v : option Z) (g : Globals) : Globals :=
  mkGlobals (g_mainThreadId g) (g_networkConnected g) v (g_pCPContainer g)
    (g_pConnectPoint g) (g_pNetEvents g) (g_dwCookie g) (g_hClient g) (monitorCtx g).
Definition set_pCPContainer (v : option Z) (g : Globals) : Globals :=
  mkGlobals (g_mainThreadId g) (g_networkConnected g) (g_pNetworkListManager g) v
    (g_pConnectPoint g) (g_pNetEvents g) (g_dwCookie g) (g_hClient g) (monitorCtx g).
Definition set_pConnectPoint (v : option Z) (g : Globals) : Globals :=
  mkGlobals (g_mainThreadId g) (g_networkConnected g) (g_pNetworkListManager g)
    (g_pCPContainer g) v (g_pNetEvents g) (g_dwCookie g) (g_hClient g) (monitorCtx g).
Definition set_pNetEvents (v : option nat) (g : Globals) : Globals :=
  mkGlobals (g_mainThreadId g) (g_networkConnected g) (g_pNetworkListManager g)
    (g_pCPContainer g) (g_pConnectPoint g) v (g_dwCookie g) (g_hClient g) (monitorCtx g).
Definition set_dwCookie (v : Z) (g : Globals) : Globals :=
  mkGlobals (g_mainThreadId g) (g_networkConnected g) (g_pNetworkListManager g)
    (g_pCPContainer g) (g_pConnectPoint g) (g_pNetEvents g) v (g_hClient g) (monitorCtx g).
Definition set_hClient (v : option Z) (g : Globals) : Globals :=
  mkGlobals (g_mainThreadId g) (g_networkConnected g) (g_pNetworkListManager g)
    (g_pCPContainer g) (g_pConnectPoint g) (g_pNetEvents g) (g_dwCookie g) v (monitorCtx g).
Definition set_monitorCtx (v : SignalMonitorContext) (g : Globals) : Globals :=
  mkGlobals (g_mainThreadId g) (g_networkConnected g) (g_pNetworkListManager g)
    (g_pCPContainer g) (g_pConnectPoint g) (g_pNetEvents g) (g_dwCookie g) (g_hClient g) v.

Definition set_isSignalWeak (v : bool) (c : SignalMonitorContext) : SignalMonitorContext :=
  mkCtx (thresholdDrop c) (thresholdRecover c) v (lastQuality c).
Definition set_lastQuality (v : Z) (c : SignalMonitorContext) : SignalMonitorContext :=
  mkCtx (thresholdDrop c) (thresholdRecover c) (isSignalWeak c) v.

Definition set_heap (v : list ObjState) (p : Platform) : Platform :=
  mkPlatform v (advised p) (wlan_open p) (wlan_notify p).
Definition set_advised (v : list (Z * nat)) (p : Platform) : Platform :=
  mkPlatform (heap p) v (wlan_open p) (wlan_notify p).
Definition set_wlan_open (v : list Z) (p : Platform) : Platform :=
  mkPlatform (heap p) (advised p) v (wlan_notify p).
Definition set_wlan_notify (v : option (Z * Z)) (p : Platform) : Platform :=
  mkPlatform (heap p) (advised p) (wlan_open p) v.

(** *** The monad of the program: the world is threaded through, and a
    call through a dangling pointer is a fault that ends the run. *)

Inductive Result (A : Type) : Type :=
| Ok (a : A) (w : World)
| Fault (why : string).
Arguments Ok {A} a w.
Arguments Fault {A} why.

Definition M (A : Type) : Type := World -> Result A.

Definition ret {A} (a : A) : M A := fun w => Ok a w.

Definition bind {A B} (c : M A) (k : A -> M B) : M B :=
  fun w => match c w with
           | Ok a w' => k a w'
           | Fault why => Fault why
           end.

Definition fault {A} (why : string) : M A := fun _ => Fault why.

Declare Scope prog_scope.
Delimit Scope prog_scope with prog.
Notation "x <- c ;; k" := (bind c (fun x => k))
  (at level 61, c at next level, right associativity) : prog_scope.
Notation "c ;; k" := (bind c (fun _ => k))
  (at level 61, right associativity) : prog_scope.
Open Scope prog_scope.

Definition get_globals : M Globals := fun w => Ok (globals w) w.
Definition get_platform : M Platform := fun w => Ok (platform w) w.

Definition modify_globals (f : Globals -> Globals) : M unit :=
  fun w => Ok tt (mkWorld (f (globals w)) (platform w) (posted w) (console w) (calls w)).
Definition modify_platform (f : Platform -> Platform) : M unit :=
  fun w => Ok tt (mkWorld (globals w) (f (platform w)) (posted w) (console w) (calls w)).

(** one line to the console *)
Definition say (l : Line) : M unit :=
  fun w => Ok tt (mkWorld (globals w) (platform w) (posted w) (console w ++ [l]) (calls w)).

(** one call recorded *)
Definition call (c : Call) : M unit :=
  fun w => Ok tt (mkWorld (globals w) (platform w) (posted w) (console w) (calls w ++ [c])).

(** [PostThreadMessage]: the message is appended to the thread's queue. *)
Definition PostThreadMessage (id msg wp lp : Z) : M unit :=
  fun w => Ok tt (mkWorld (globals w) (platform w) (posted w ++ [mkMsg id msg wp lp])
                          (console w) (calls w)).

(** an [if] without [else] *)
Definition when (b : bool) (c : M unit) : M unit := if b then c else ret tt.

End Process.

Import Process.
Open Scope prog_scope.

(** ** CNetworkListManagerEvents.cpp: the reference-counted COM sink *)

Module NetEvents.

Inductive IID : Type := IID_IUnknown | IID_INetworkListManagerEvents | IID_other.

(** [new CNetworkListManagerEvents()]: the constructor sets [m_lRef] to 1.
    The address of the object is its index in the heap. *)
Definition new_CNetworkListManagerEvents : M nat :=
  p <- get_platform ;;
  modify_platform (set_heap (heap p ++ [Live 1])) ;;
  ret (List.length (heap p)).

(** [this->m_lRef] of a live object; a method called on a destroyed (or
    never allocated) object is a use after free. *)
Definition this_lRef (this : nat) : M Z :=
  p <- get_platform ;;
  match nth_error (heap p) this with
  | Some (Live n) => ret n
  | _ => fault "CNetworkListManagerEvents: method called on a destroyed object"
  end.

Fixpoint store {A} (l : list A) (i : nat) (v : A) : list A :=
  match l, i with
  | [], _ => []
  | _ :: t, O => v :: t
  | x :: t, S j => x :: store t j v
  end.

Definition set_this (this : nat) (v : ObjState) : M unit :=
  p <- get_platform ;;
  modify_platform (set_heap (store (heap p) this v)).

(** [AddRef]: [InterlockedIncrement(&m_lRef)] *)
Definition AddRef (this : nat) : M Z :=
  n <- this_lRef this ;;
  let lRef := wrap_int (n + 1) in
  set_this this (Live lRef) ;;
  ret lRef.

(** [Release]: [InterlockedDecrement(&m_lRef)], and [delete this] at 0 *)
Definition Release (this : nat) : M Z :=
  n <- this_lRef this ;;
  let lRef := wrap_int (n - 1) in
  if lRef =? 0 then
    set_this this Deleted ;;
    ret 0
  else
    set_this this (Live lRef) ;;
    ret lRef.

(** [QueryInterface]: the result and whether [*ppvObject] is [this] *)
Definition QueryInterface (this : nat) (riid : IID) : M (Z * option nat) :=
  _ <- this_lRef this ;;
  match riid with
  | IID_IUnknown | IID_INetworkListManagerEvents =>
      _ <- AddRef this ;;
      ret (S_OK, Some this)
  | IID_other => ret (E_NOINTERFACE, None)
  end.

End NetEvents.

(** ** NetworkMonitor.cpp *)

Module NetworkMonitor.

Definition WM_NETWORK_STATUS_CHANGE : Z := WM_USER + 107.
Definition WM_WIFI_SIGNAL_CHANGE : Z := WM_USER + 108.

Definition LogFunc (info : string) : M unit := say [Str info].
Definition LogError (error : string) : M unit := LogFunc ("[network error] " ++ error)%string.
Definition LogInfo (info : string) : M unit := LogFunc ("[network info] " ++ info)%string.

(** [connectivity & f] taken as a condition *)
Definition has_flag (connectivity f : Z) : bool := negb (Z.land connectivity f =? 0).

Definition PrintConnectivity (connectivity : Z) : M unit :=
  say [Str "net status changed:"] ;;
  if connectivity =? NLM_CONNECTIVITY_DISCONNECTED then
    modify_globals (set_networkConnected false) ;;
    say [Str "  [status]: No Network"]
  else
    when (has_flag connectivity NLM_CONNECTIVITY_IPV4_NOTRAFFIC)
         (say [Str "  [IPv4]: no traffic"]) ;;
    when (has_flag connectivity NLM_CONNECTIVITY_IPV4_SUBNET)
         (say [Str "  [IPv4]: subnet (no Internet)"]) ;;
    when (has_flag connectivity NLM_CONNECTIVITY_IPV4_LOCALNETWORK)
         (say [Str "  [IPv4]: local network"]) ;;
    when (has_flag connectivity NLM_CONNECTIVITY_IPV4_INTERNET)
         (modify_globals (set_networkConnected true) ;;
          say [Str "  [IPv4]: Internet connected (OK)"]) ;;
    when (has_flag connectivity NLM_CONNECTIVITY_IPV6_NOTRAFFIC)
         (say [Str "  [IPv6]: no traffic"]) ;;
    when (has_flag connectivity NLM_CONNECTIVITY_IPV6_SUBNET)
         (say [Str "  [IPv6]: subnet (no Internet)"]) ;;
    when (has_flag connectivity NLM_CONNECTIVITY_IPV6_LOCALNETWORK)
         (say [Str "  [IPv6]: local network"]) ;;
    when (has_flag connectivity NLM_CONNECTIVITY_IPV6_INTERNET)
         (modify_globals (set_networkConnected true) ;;
          say [Str "  [IPv6]: Internet connected (OK)"]).

(** the local [hasInternet] of [sendNetworkStatusMessage] *)
Definition hasInternet (connectivity : Z) : bool :=
  has_flag connectivity NLM_CONNECTIVITY_IPV4_INTERNET
  || has_flag connectivity NLM_CONNECTIVITY_IPV6_INTERNET.

Definition sendNetworkStatusMessage (connectivity : Z) : M unit :=
  g <- get_globals ;;
  if hasInternet connectivity then
    PostThreadMessage (g_mainThreadId g) WM_NETWORK_STATUS_CHANGE 1 0
  else
    PostThreadMessage (g_mainThreadId g) WM_NETWORK_STATUS_CHANGE 0 0.

(** [CNetworkListManagerEvents::ConnectivityChanged] *)
Definition ConnectivityChanged (this : nat) (newConnectivity : Z) : M Z :=
  _ <- NetEvents.this_lRef this ;;
  PrintConnectivity newConnectivity ;;
  sendNetworkStatusMessage newConnectivity ;;
  ret S_OK.

(** *** The platform side of the connection point

    [Advise] that succeeds queries the sink for the events interface
    (which takes a reference) and stores it under the cookie it hands
    out; [Unadvise] of a known cookie drops the entry and releases the
    sink.  An unknown cookie is an error code that the caller ignores. *)

Definition platform_Advise (r : Z * Z) (sink : nat) : M Z :=
  call (CP_Advise sink) ;;
  if SUCCEEDED (fst r) then
    _ <- NetEvents.QueryInterface sink NetEvents.IID_INetworkListManagerEvents ;;
    p <- get_platform ;;
    modify_platform (set_advised (advised p ++ [(snd r, sink)])) ;;
    modify_globals (set_dwCookie (snd r)) ;;
    ret (fst r)
  else ret (fst r).

Fixpoint remove_cookie (cookie : Z) (l : list (Z * nat)) : option nat * list (Z * nat) :=
  match l with
  | [] => (None, [])
  | (c, s) :: t =>
      if c =? cookie then (Some s, t)
      else let '(r, t') := remove_cookie cookie t in (r, (c, s) :: t')
  end.

Definition platform_Unadvise (cookie : Z) : M unit :=
  call (CP_Unadvise cookie) ;;
  p <- get_platform ;;
  match remove_cookie cookie (advised p) with
  | (Some sink, rest) =>
      modify_platform (set_advised rest) ;;
      _ <- NetEvents.Release sink ;;
      ret tt
  | (None, _) => ret tt
  end.

(** What the platform answers during [StartNetworkMonitor]: the
    [HRESULT] of each call and the value it writes through its out
    parameter. *)
Record NlmAnswers : Type := mkNlm {
  a_CoInitializeEx : Z;
  a_CoCreateInstance : Z * Z;
  a_QueryInterface : Z * Z;
  a_FindConnectionPoint : Z * Z;
  a_Advise : Z * Z;
  a_GetConnectivity : Z * Z
}.

(** an interface out parameter: the pointer on success, [NULL] on failure *)
Definition out_ptr (r : Z * Z) : option Z :=
  if SUCCEEDED (fst r) then Some (snd r) else None.

Definition StartNetworkMonitor (P : NlmAnswers) : M Z :=
  call CoInitializeEx ;;
  let hr := a_CoInitializeEx P in
  if FAILED hr then
    LogError "CoInitializeEx failed." ;;
    ret 1
  else
    LogInfo "Initializing Network List Manager..." ;;
    call CoCreateInstance ;;
    modify_globals (set_pNetworkListManager (out_ptr (a_CoCreateInstance P))) ;;
    let hr := fst (a_CoCreateInstance P) in
    if FAILED hr then
      LogError "Can not create NetworkListManager instance. please check if you have installed NLM (Vista+)." ;;
      call CoUninitialize ;;
      ret 1
    else
      call NLM_QueryInterface ;;
      modify_globals (set_pCPContainer (out_ptr (a_QueryInterface P))) ;;
      let hr := fst (a_QueryInterface P) in
      hr <- (if SUCCEEDED hr then
               call CPC_FindConnectionPoint ;;
               modify_globals (set_pConnectPoint (out_ptr (a_FindConnectionPoint P))) ;;
               ret (fst (a_FindConnectionPoint P))
             else ret hr) ;;
      (if SUCCEEDED hr then
         obj <- NetEvents.new_CNetworkListManagerEvents ;;
         modify_globals (set_pNetEvents (Some obj)) ;;
         hr <- platform_Advise (a_Advise P) obj ;;
         if SUCCEEDED hr then
           LogInfo "Network monitor started." ;;
           call NLM_GetConnectivity ;;
           when (SUCCEEDED (fst (a_GetConnectivity P)))
                (let currentConnectivity := snd (a_GetConnectivity P) in
                 LogInfo "Initial network status." ;;
                 PrintConnectivity currentConnectivity ;;
                 g <- get_globals ;;
                 when (currentConnectivity =? NLM_CONNECTIVITY_DISCONNECTED)
                      (PostThreadMessage (g_mainThreadId g) WM_NETWORK_STATUS_CHANGE 0 0))
         else
           LogError "Advise failed."
       else
         LogError "Can not get connection point.") ;;
      ret 0.

(** [SafeRelease(&global)] of Utils.h, for a global interface pointer
    given by its reader and writer. *)
Definition SafeRelease (get : Globals -> option Z)
                       (set : option Z -> Globals -> Globals) : M unit :=
  g <- get_globals ;;
  match get g with
  | Some p =>
      call (IUnknown_Release p) ;;
      modify_globals (set None)
  | None => ret tt
  end.

Definition StopNetworkMonitor : M unit :=
  g <- get_globals ;;
  when (match g_pConnectPoint g with Some _ => true | None => false end)
       (platform_Unadvise (g_dwCookie g)) ;;
  match g_pNetEvents g with
  | Some obj =>
      call (NetEvents_Release obj) ;;
      _ <- NetEvents.Release obj ;;
      ret tt
  | None => ret tt
  end ;;
  LogInfo "Network monitor stopped." ;;
  SafeRelease g_pConnectPoint set_pConnectPoint ;;
  SafeRelease g_pCPContainer set_pCPContainer ;;
  SafeRelease g_pNetworkListManager set_pNetworkListManager ;;
  call CoUninitialize ;;
  LogInfo "Program exited safely.".

Definition sendWlanStatusMessage (quality rssi : Z) : M unit :=
  g <- get_globals ;;
  PostThreadMessage (g_mainThreadId g) WM_WIFI_SIGNAL_CHANGE quality rssi.

Definition modify_monitorCtx (f : SignalMonitorContext -> SignalMonitorContext) : M unit :=
  modify_globals (fun g => set_monitorCtx (f (monitorCtx g)) g).

Definition get_monitorCtx : M SignalMonitorContext :=
  g <- get_globals ;; ret (monitorCtx g).

(** [WlanNotificationCallback(pNotificationData, pContext)] *)
Definition WlanNotificationCallback (pNotificationData : WLAN_NOTIFICATION_DATA)
                                    (pContext : option CtxPtr) : M unit :=
  match pContext with
  | None => say [Str "pMonitor is null!"]
  | Some Addr_monitorCtx =>
      when (NotificationSource pNotificationData =? WLAN_NOTIFICATION_SOURCE_MSM)
        (let code := NotificationCode pNotificationData in
         if code =? wlan_notification_msm_signal_quality_change then
           when (dwDataSize pNotificationData >=? sizeof_ULONG)
             (let currentQuality := pData pNotificationData in
              let currentRSSI := QualityToRSSI currentQuality in
              pMonitor <- get_monitorCtx ;;
              (if negb (isSignalWeak pMonitor) && (currentQuality <=? thresholdDrop pMonitor) then
                 modify_monitorCtx (set_isSignalWeak true) ;;
                 say [] ;;
                 say [Str "[Warning] The WiFi signal has become weak!"] ;;
                 say [Str "  -> threshold: "; Num (thresholdDrop pMonitor); Str "%"] ;;
                 say [Str "  -> quality: "; Num currentQuality; Str "%"] ;;
                 say [Str "  -> RSSI: "; Num currentRSSI; Str " dBm"] ;;
                 sendWlanStatusMessage currentQuality currentRSSI
               else if isSignalWeak pMonitor && (currentQuality >=? thresholdRecover pMonitor) then
                 modify_monitorCtx (set_isSignalWeak false) ;;
                 say [] ;;
                 say [Str "[Info] The WiFi signal has become strong!"] ;;
                 say [Str "  -> threshold: "; Num (thresholdRecover pMonitor); Str "%"] ;;
                 say [Str "  -> quality: "; Num currentQuality; Str "%"] ;;
                 say [Str "  -> RSSI: "; Num currentRSSI; Str " dBm"] ;;
                 sendWlanStatusMessage currentQuality currentRSSI
               else ret tt) ;;
              modify_monitorCtx (set_lastQuality currentQuality))
         else if code =? wlan_notification_msm_connected then
           say [Str "WiFi connected."]
         else if code =? wlan_notification_msm_disconnected then
           say [Str "WiFi disconnected."]
         else ret tt)
  end.

(** *** The platform side of the Native Wifi client handle

    A handle that [WlanOpenHandle] returned is open until it is closed;
    a call on any other handle value returns an error code.  Closing a
    handle also drops its notification registration. *)

Definition is_open (h : option Z) (p : Platform) : bool :=
  match h with
  | Some v => existsb (Z.eqb v) (wlan_open p)
  | None => false
  end.

Definition platform_WlanOpenHandle (r : Z * Z) : M Z :=
  call WlanOpenHandle ;;
  if fst r =? ERROR_SUCCESS then
    p <- get_platform ;;
    modify_platform (set_wlan_open (snd r :: wlan_open p)) ;;
    modify_globals (set_hClient (Some (snd r))) ;;
    ret (fst r)
  else ret (fst r).

Definition platform_WlanRegisterNotification (answer : Z) (h : option Z) (source : Z) : M Z :=
  call (WlanRegisterNotification h source) ;;
  p <- get_platform ;;
  match h with
  | Some v =>
      if is_open h p then
        if answer =? ERROR_SUCCESS then
          modify_platform
            (set_wlan_notify (if source =? WLAN_NOTIFICATION_SOURCE_NONE
                              then None else Some (v, source))) ;;
          ret answer
        else ret answer
      else ret ERROR_INVALID_HANDLE
  | None => ret ERROR_INVALID_HANDLE
  end.

Definition platform_WlanCloseHandle (h : option Z) : M Z :=
  call (WlanCloseHandle h) ;;
  p <- get_platform ;;
  match h with
  | Some v =>
      if is_open h p then
        modify_platform (set_wlan_open (filter (fun x => negb (x =? v)) (wlan_open p))) ;;
        modify_platform (fun p => match wlan_notify p with
                                  | Some (v', _) => if v' =? v then set_wlan_notify None p else p
                                  | None => p
                                  end) ;;
        ret ERROR_SUCCESS
      else ret ERROR_INVALID_HANDLE
  | None => ret ERROR_INVALID_HANDLE
  end.

(** What the platform answers during [StartWlanMonitor]: the result of
    each call with the handle, the [dwNumberOfItems] of the interface
    list, and the [isState] and [wlanSignalQuality] of the connection
    attributes. *)
Record WlanAnswers : Type := mkWlan {
  a_WlanOpenHandle : Z * Z;
  a_WlanEnumInterfaces : Z * Z;
  a_WlanQueryInterface : Z * (Z * Z);
  a_WlanRegisterNotification : Z
}.

(** The two lines printed while the baseline is taken are, in the
    source, in a legacy national encoding; their text is glossed. *)
Definition StartWlanMonitor (P : WlanAnswers) : M Z :=
  LogInfo "Initializing Native Wifi Notification Listener..." ;;
  dwResult <- platform_WlanOpenHandle (a_WlanOpenHandle P) ;;
  if negb (dwResult =? ERROR_SUCCESS) then
    LogError "Failed to open handle." ;;
    ret 1
  else
    call WlanEnumInterfaces ;;
    let dwResult := fst (a_WlanEnumInterfaces P) in
    when ((dwResult =? ERROR_SUCCESS) && (snd (a_WlanEnumInterfaces P) >? 0))
      (call WlanQueryInterface ;;
       when (fst (a_WlanQueryInterface P) =? ERROR_SUCCESS)
         (when (fst (snd (a_WlanQueryInterface P)) =? wlan_interface_state_connected)
            (let startQuality := snd (snd (a_WlanQueryInterface P)) in
             ctx <- get_monitorCtx ;;
             (if startQuality <=? thresholdDrop ctx then
                modify_monitorCtx (set_isSignalWeak true) ;;
                say [Str "  -> initial check: signal weak ("; Num startQuality;
                     Str "%), [weak signal] mode entered."]
              else
                modify_monitorCtx (set_isSignalWeak false) ;;
                say [Str "  -> initial check: signal good ("; Num startQuality;
                     Str "%), [monitoring] mode entered."]) ;;
             modify_monitorCtx (set_lastQuality startQuality)) ;;
          call WlanFreeMemory) ;;
       call WlanFreeMemory) ;;
    g <- get_globals ;;
    dwResult <- platform_WlanRegisterNotification (a_WlanRegisterNotification P)
                  (g_hClient g) WLAN_NOTIFICATION_SOURCE_MSM ;;
    if negb (dwResult =? ERROR_SUCCESS) then
      LogError "Failed to register notification." ;;
      _ <- platform_WlanCloseHandle (g_hClient g) ;;
      ret 1
    else
      LogInfo "Native Wifi Notification Listener started." ;;
      ret 0.

(** Removing the registration of an open handle succeeds. *)
Definition StopWlanMonitor : M unit :=
  LogInfo "Cleaning up wlan resources..." ;;
  g <- get_globals ;;
  _ <- platform_WlanRegisterNotification ERROR_SUCCESS (g_hClient g)
         WLAN_NOTIFICATION_SOURCE_NONE ;;
  _ <- platform_WlanCloseHandle (g_hClient g) ;;
  ret tt.

Definition OnExit : M unit :=
  StopNetworkMonitor ;;
  StopWlanMonitor ;;
  LogInfo "Monitoring stopped by process exit".

(** *** [main] and the notifications the platform delivers while its
    message loop runs *)

Inductive PlatformEvent : Type :=
| NlmConnectivity (connectivity : Z)
| WlanNotification (n : WLAN_NOTIFICATION_DATA).

Fixpoint for_each {A} (f : A -> M unit) (l : list A) : M unit :=
  match l with
  | [] => ret tt
  | x :: t => f x ;; for_each f t
  end.

(** The connection point calls every advised sink; Native Wifi calls the
    registered callback, with the context given at registration, for a
    notification of a registered source. *)
Definition deliver (e : PlatformEvent) : M unit :=
  p <- get_platform ;;
  match e with
  | NlmConnectivity c =>
      for_each (fun cs => _ <- ConnectivityChanged (snd cs) c ;; ret tt) (advised p)
  | WlanNotification n =>
      match wlan_notify p with
      | Some (_, source) =>
          when (negb (Z.land (NotificationSource n) source =? 0))
               (WlanNotificationCallback n (Some Addr_monitorCtx))
      | None => ret tt
      end
  end.

(** the body of the [GetMessage] loop for one message *)
Definition handle_message (msg : Msg) : M unit :=
  if message msg =? WM_NETWORK_STATUS_CHANGE then
    say [Str "network status changed: "; Num (wParam msg)]
  else if message msg =? WM_WIFI_SIGNAL_CHANGE then
    say [Str "Wifi signal changed quality: "; Num (wParam msg);
         Str ", RSSI: "; Num (lParam msg)]
  else ret tt.

(** the loop handles the messages posted since the [k]-th *)
Definition pump_from (k : nat) : M unit :=
  fun w => for_each handle_message (skipn k (posted w)) w.

Definition message_loop (events : list PlatformEvent) : M unit :=
  pump_from 0 ;;
  for_each (fun e => fun w => (deliver e ;; pump_from (List.length (posted w))) w) events.

(** [main], for the thread id, the platform's answers and the
    notifications that arrive before [WM_QUIT].  (The label of its first
    line is glossed, like the two of [StartWlanMonitor].) *)
Definition main (tid : Z) (N : NlmAnswers) (W : WlanAnswers)
                (events : list PlatformEvent) : M Z :=
  modify_globals (set_mainThreadId tid) ;;
  say [Str "thread ID: "; Num tid] ;;
  _ <- StartNetworkMonitor N ;;
  _ <- StartWlanMonitor W ;;
  message_loop events ;;
  StopNetworkMonitor ;;
  StopWlanMonitor ;;
  ret 0.

End NetworkMonitor.

Import NetworkMonitor.

(** ** Observations used by the statements *)

Module Obs.

(** Every quality for which the last [return] is reached, checked one
    by one on the binary64 computation. *)
Definition formula_table_ok : bool :=
  forallb (fun n => rssi_formula (Z.of_nat n) =? Z.of_nat n / 2 - 100) (seq 0 101).

(** every flag of [NLM_CONNECTIVITY] that is not an Internet flag *)
Definition no_internet_flags : list Z :=
  [NLM_CONNECTIVITY_IPV4_NOTRAFFIC; NLM_CONNECTIVITY_IPV6_NOTRAFFIC;
   NLM_CONNECTIVITY_IPV4_SUBNET; NLM_CONNECTIVITY_IPV4_LOCALNETWORK;
   NLM_CONNECTIVITY_IPV6_SUBNET; NLM_CONNECTIVITY_IPV6_LOCALNETWORK].

(** the flag sets built from a list of flags *)
Definition flags_of (l : list Z) : Z := fold_right Z.lor 0 l.

Fixpoint sublists {A} (l : list A) : list (list A) :=
  match l with
  | [] => [[]]
  | x :: t => map (cons x) (sublists t) ++ sublists t
  end.

(** an MSM signal-quality notification carrying [q] in [size] bytes *)
Definition quality_notification (size q : Z) : WLAN_NOTIFICATION_DATA :=
  mkNotification WLAN_NOTIFICATION_SOURCE_MSM
                 wlan_notification_msm_signal_quality_change size q.

(** the callback as Native Wifi invokes it for such a notification *)
Definition notify (q : Z) : M unit :=
  WlanNotificationCallback (quality_notification sizeof_ULONG q) (Some Addr_monitorCtx).

Definition ctx_of (w : World) : SignalMonitorContext := monitorCtx (globals w).

(** the message of a signal change *)
Definition signal_msg (w : World) (q : Z) : Msg :=
  mkMsg (g_mainThreadId (globals w)) WM_WIFI_SIGNAL_CHANGE q (QualityToRSSI q).

(** A command that only prints and only writes [g_networkConnected]. *)
Definition prints_only (c : M unit) : Prop :=
  forall w, exists w' b,
    c w = Ok tt w' /\
    globals w' = set_networkConnected b (globals w) /\
    platform w' = platform w /\ posted w' = posted w /\ calls w' = calls w.

(** the sink is alive *)
Definition live (this : nat) (w : World) : Prop :=
  exists n, nth_error (heap (platform w)) this = Some (Live n).

(** the message of a connectivity notification *)
Definition status_msg (w : World) (connectivity : Z) : Msg :=
  mkMsg (g_mainThreadId (globals w)) WM_NETWORK_STATUS_CHANGE
        (if hasInternet connectivity then 1 else 0) 0.

(** a world in which one sink, with two references, is advised *)
Definition advised_world : World :=
  mkWorld initial_globals (mkPlatform [Live 2] [(7, 0%nat)] [] None) [] [] [].

(** the registration of the connectivity subscriber succeeds: every call
    up to and including [Advise] does *)
Definition registers (N : NlmAnswers) : bool :=
  SUCCEEDED (a_CoInitializeEx N) && SUCCEEDED (fst (a_CoCreateInstance N)) &&
  SUCCEEDED (fst (a_QueryInterface N)) && SUCCEEDED (fst (a_FindConnectionPoint N)) &&
  SUCCEEDED (fst (a_Advise N)).

(** what [StartNetworkMonitor] posts after a registration that succeeded *)
Definition initial_event (N : NlmAnswers) (w : World) : list Msg :=
  if SUCCEEDED (fst (a_GetConnectivity N))
     && (snd (a_GetConnectivity N) =? NLM_CONNECTIVITY_DISCONNECTED)
  then [mkMsg (g_mainThreadId (globals w)) WM_NETWORK_STATUS_CHANGE 0 0]
  else [].

(** a platform on which every call succeeds: the machine is on the
    Internet over IPv4, and the first wireless interface is connected
    with quality 45 *)
Definition nlm_ok : NlmAnswers :=
  mkNlm S_OK (S_OK, 1000) (S_OK, 1001) (S_OK, 1002) (S_OK, 7)
        (S_OK, NLM_CONNECTIVITY_IPV4_INTERNET).

Definition wlan_ok : WlanAnswers :=
  mkWlan (ERROR_SUCCESS, 2000) (ERROR_SUCCESS, 1)
         (ERROR_SUCCESS, (wlan_interface_state_connected, 45)) ERROR_SUCCESS.

(** the initial world, but with the two thresholds exchanged *)
Definition inverted_world : World :=
  mkWorld (set_monitorCtx (mkCtx 50 40 false 100) initial_globals)
          (mkPlatform [] [] [] None) [] [] [].

(** [StartWlanMonitor] reaches the statements that take the baseline *)
Definition baseline_taken (W : WlanAnswers) : bool :=
  (fst (a_WlanOpenHandle W) =? ERROR_SUCCESS) &&
  (fst (a_WlanEnumInterfaces W) =? ERROR_SUCCESS) && (snd (a_WlanEnumInterfaces W) >? 0) &&
  (fst (a_WlanQueryInterface W) =? ERROR_SUCCESS) &&
  (fst (snd (a_WlanQueryInterface W)) =? wlan_interface_state_connected).

(** the value [StartWlanMonitor] returns *)
Definition wlan_start_result (W : WlanAnswers) : Z :=
  if (fst (a_WlanOpenHandle W) =? ERROR_SUCCESS) && (a_WlanRegisterNotification W =? ERROR_SUCCESS)
  then 0 else 1.

(** Everything both monitors acquire is held: the three interface
    pointers, the sink with the reference of the program and the one of
    the connection point, under the cookie, and an open client handle. *)
Definition fully_started (w : World) (cp cpc nlm : Z) (obj : nat) (h : Z) : Prop :=
  g_pConnectPoint (globals w) = Some cp /\
  g_pCPContainer (globals w) = Some cpc /\
  g_pNetworkListManager (globals w) = Some nlm /\
  g_pNetEvents (globals w) = Some obj /\
  nth_error (heap (platform w)) obj = Some (Live 2) /\
  fst (remove_cookie (g_dwCookie (globals w)) (advised (platform w))) = Some obj /\
  g_hClient (globals w) = Some h /\
  is_open (Some h) (platform w) = true.

(** the calls a run has made after those of the world it started in *)
Definition new_calls {A} (r : Result A) (w : World) : list Call :=
  match r with
  | Ok _ w' => skipn (List.length (calls w)) (calls w')
  | Fault _ => []
  end.

(** the place of the first call that satisfies [f] *)
Fixpoint index_of (f : Call -> bool) (l : list Call) : option nat :=
  match l with
  | [] => None
  | c :: t => if f c then Some 0%nat else option_map S (index_of f t)
  end.

Definition is_wlan_unregister (c : Call) : bool :=
  match c with
  | WlanRegisterNotification _ source => source =? WLAN_NOTIFICATION_SOURCE_NONE
  | _ => false
  end.

Definition is_unadvise (c : Call) : bool :=
  match c with CP_Unadvise _ => true | _ => false end.

Definition is_CoUninitialize (c : Call) : bool :=
  match c with CoUninitialize => true | _ => false end.

(** the world in which [main] stops the monitors, on a platform where
    every call succeeded and no notification arrived *)
Definition started_world : World :=
  match (modify_globals (set_mainThreadId 42) ;;
         _ <- StartNetworkMonitor nlm_ok ;; _ <- StartWlanMonitor wlan_ok ;; ret tt)
          initial_world with
  | Ok _ w => w
  | Fault _ => initial_world
  end.

End Obs.

Import Obs.

(** ** Further observations: reference counts, console lines, sequences of
    notifications and the resources a process holds *)

Module More.

(** a value of [LONG] *)
Definition is_LONG (n : Z) : Prop := INT_MIN <= n <= INT_MAX.


(** the line [PrintConnectivity] prints for a flag that is set *)
Definition flag_line (connectivity f : Z) (text : string) : list Line :=
  if has_flag connectivity f then [[Str text]] else [].

(** everything [PrintConnectivity] prints *)
Definition connectivity_lines (connectivity : Z) : list Line :=
  [Str "net status changed:"] ::
  (if connectivity =? NLM_CONNECTIVITY_DISCONNECTED then [[Str "  [status]: No Network"]]
   else
     flag_line connectivity NLM_CONNECTIVITY_IPV4_NOTRAFFIC "  [IPv4]: no traffic" ++
     flag_line connectivity NLM_CONNECTIVITY_IPV4_SUBNET "  [IPv4]: subnet (no Internet)" ++
     flag_line connectivity NLM_CONNECTIVITY_IPV4_LOCALNETWORK "  [IPv4]: local network" ++
     flag_line connectivity NLM_CONNECTIVITY_IPV4_INTERNET "  [IPv4]: Internet connected (OK)" ++
     flag_line connectivity NLM_CONNECTIVITY_IPV6_NOTRAFFIC "  [IPv6]: no traffic" ++
     flag_line connectivity NLM_CONNECTIVITY_IPV6_SUBNET "  [IPv6]: subnet (no Internet)" ++
     flag_line connectivity NLM_CONNECTIVITY_IPV6_LOCALNETWORK "  [IPv6]: local network" ++
     flag_line connectivity NLM_CONNECTIVITY_IPV6_INTERNET "  [IPv6]: Internet connected (OK)").

(** [g_networkConnected] after [PrintConnectivity], from its value before *)
Definition connected_after (connectivity : Z) (before : bool) : bool :=
  if connectivity =? NLM_CONNECTIVITY_DISCONNECTED then false
  else hasInternet connectivity || before.


(** the notification is one the callback acts on: it has a context, comes
    from the MSM source, is a signal-quality change and carries a [ULONG] *)
Definition acts_on (n : WLAN_NOTIFICATION_DATA) (pContext : option CtxPtr) : bool :=
  match pContext with
  | None => false
  | Some _ =>
      (NotificationSource n =? WLAN_NOTIFICATION_SOURCE_MSM) &&
      (NotificationCode n =? wlan_notification_msm_signal_quality_change) &&
      (dwDataSize n >=? sizeof_ULONG)
  end.

(** nothing of the connectivity monitor is held, and no sink exists *)
Definition idle (w : World) : Prop :=
  g_pNetworkListManager (globals w) = None /\ g_pCPContainer (globals w) = None /\
  g_pConnectPoint (globals w) = None /\ g_pNetEvents (globals w) = None /\
  heap (platform w) = [] /\ advised (platform w) = [].

(** the value [StartNetworkMonitor] returns *)
Definition start_result (N : NlmAnswers) : Z :=
  if SUCCEEDED (a_CoInitializeEx N) && SUCCEEDED (fst (a_CoCreateInstance N)) then 0 else 1.

(** what the connectivity monitor holds, and what the wireless one holds *)
Definition nlm_resources (w : World) :=
  (g_pNetworkListManager (globals w), g_pCPContainer (globals w), g_pConnectPoint (globals w),
   g_pNetEvents (globals w), g_dwCookie (globals w),
   heap (platform w), advised (platform w)).

Definition wlan_resources (w : World) :=
  (g_hClient (globals w), wlan_open (platform w), wlan_notify (platform w)).

(** The states [StartNetworkMonitor] leaves an idle process in: no sink;
    a sink that is advised, with the reference of the program and the one
    of the connection point; or a sink that is not advised, with the
    reference of the program only. *)
Definition stop_ready (w : World) : Prop :=
  (g_pNetEvents (globals w) = None /\ heap (platform w) = [] /\ advised (platform w) = []) \/
  (g_pNetEvents (globals w) = Some 0%nat /\ heap (platform w) = [Live 2] /\
   advised (platform w) = [(g_dwCookie (globals w), 0%nat)] /\
   g_pConnectPoint (globals w) <> None) \/
  (g_pNetEvents (globals w) = Some 0%nat /\ heap (platform w) = [Live 1] /\
   advised (platform w) = []).

(** every interface pointer is null, no sink is advised and no sink is alive *)
Definition released (w : World) : Prop :=
  g_pNetworkListManager (globals w) = None /\ g_pCPContainer (globals w) = None /\
  g_pConnectPoint (globals w) = None /\ advised (platform w) = [] /\
  (heap (platform w) = [] \/ heap (platform w) = [Deleted]).

(** no wireless handle is open and no wireless notification is registered *)
Definition wlan_idle (w : World) : Prop :=
  wlan_open (platform w) = [] /\ wlan_notify (platform w) = None.

(** the states [StartWlanMonitor] leaves such a process in *)
Definition wlan_ready (w : World) : Prop :=
  wlan_idle w \/
  exists h, g_hClient (globals w) = Some h /\ wlan_open (platform w) = [h] /\
            wlan_notify (platform w) = Some (h, WLAN_NOTIFICATION_SOURCE_MSM).

Definition count_calls (f : Call -> bool) (l : list Call) : nat := List.length (filter f l).

Definition is_CoInitializeEx (c : Call) : bool :=
  match c with CoInitializeEx => true | _ => false end.

Definition is_IUnknown_Release (c : Call) : bool :=
  match c with IUnknown_Release _ => true | _ => false end.

End More.

Import More.

(** * Properties *)

(** ** QualityToRSSI *)

Section Rssi.

Lemma formula_table : formula_table_ok = true.
Proof. vm_compute. reflexivity. Qed.

Lemma rssi_formula_half (q : Z) :
  0 <= q <= 100 -> rssi_formula q = q / 2 - 100.
Proof.
  intros Hq.
  pose proof formula_table as T. unfold formula_table_ok in T.
  rewrite forallb_forall in T.
  specialize (T (Z.to_nat q)).
  rewrite Z2Nat.id in T by lia.
  apply Z.eqb_eq, T, in_seq. lia.
Qed.

Lemma QualityToRSSI_cases (q : Z) :
  0 <= q ->
  QualityToRSSI q = if q =? 0 then -100 else if q >=? 100 then -50 else q / 2 - 100.
Proof.
  intros Hq. unfold QualityToRSSI.
  destruct (q =? 0) eqn:E0; [reflexivity|].
  destruct (q >=? 100) eqn:E1; [reflexivity|].
  apply rssi_formula_half.
  rewrite Z.geb_leb in E1. apply Z.leb_gt in E1. lia.
Qed.

End Rssi.

(** C8.  For every [unsigned long] quality [q], [QualityToRSSI q] is
    [-100] when [q = 0], [-50] when [q >= 100], and [floor (q / 2) - 100]
    otherwise; in particular it is [-100] at 0, [-50] at 100 and [-80] at
    40. *)
Theorem QualityToRSSI_spec (q : Z) :
  is_ULONG q ->
  (q = 0 -> QualityToRSSI q = -100) /\
  (q >= 100 -> QualityToRSSI q = -50) /\
  (0 < q < 100 -> QualityToRSSI q = q / 2 - 100) /\
  QualityToRSSI 0 = -100 /\ QualityToRSSI 100 = -50 /\ QualityToRSSI 40 = -80.
Proof.
  intros [Hq _].
  rewrite (QualityToRSSI_cases q Hq).
  repeat split; try reflexivity; intros H.
  - subst q. reflexivity.
  - destruct (q =? 0) eqn:E0; [apply Z.eqb_eq in E0; lia|].
    destruct (q >=? 100) eqn:E1; [reflexivity|].
    rewrite Z.geb_leb in E1. apply Z.leb_gt in E1. lia.
  - destruct (q =? 0) eqn:E0; [apply Z.eqb_eq in E0; lia|].
    destruct (q >=? 100) eqn:E1; [|reflexivity].
    rewrite Z.geb_leb in E1. apply Z.leb_le in E1. lia.
Qed.

Lemma QualityToRSSI_spec_witness :
  is_ULONG 40 /\ QualityToRSSI 40 = 40 / 2 - 100.
Proof.
  assert (H : is_ULONG 40) by (unfold is_ULONG, ULONG_MAX; lia).
  split; [exact H|].
  destruct (QualityToRSSI_spec 40 H) as (_ & _ & Mid & _).
  apply Mid. lia.
Defined.

(** C10.  For every [unsigned long] quality, [QualityToRSSI] lies in
    [[-100, -50]]; it is monotone non-decreasing; and the expression of
    the last branch, evaluated at the boundaries 0 and 100, gives the
    constants [-100] and [-50] that the first two branches return. *)
Theorem QualityToRSSI_range_monotone (q1 q2 : Z) :
  is_ULONG q1 -> is_ULONG q2 ->
  (-100 <= QualityToRSSI q1 <= -50) /\
  (q1 <= q2 -> QualityToRSSI q1 <= QualityToRSSI q2) /\
  (rssi_formula 0 = QualityToRSSI 0 /\ rssi_formula 100 = QualityToRSSI 100) /\
  (0 / 2 - 100 = QualityToRSSI 0 /\ 100 / 2 - 100 = QualityToRSSI 100).
Proof.
  intros [H1 _] [H2 _].
  rewrite (QualityToRSSI_cases q1 H1), (QualityToRSSI_cases q2 H2).
  repeat split; try reflexivity.
  - destruct (q1 =? 0) eqn:E0; [lia|].
    destruct (q1 >=? 100) eqn:E1; [lia|].
    apply Z.eqb_neq in E0. rewrite Z.geb_leb in E1. apply Z.leb_gt in E1.
    assert (0 <= q1 / 2) by (apply Z.div_pos; lia). lia.
  - destruct (q1 =? 0) eqn:E0; [lia|].
    destruct (q1 >=? 100) eqn:E1; [lia|].
    rewrite Z.geb_leb in E1. apply Z.leb_gt in E1.
    assert (q1 / 2 < 50) by (apply Z.div_lt_upper_bound; lia). lia.
  - intros Hle.
    destruct (q1 =? 0) eqn:A0; destruct (q2 =? 0) eqn:B0;
      destruct (q1 >=? 100) eqn:A1; destruct (q2 >=? 100) eqn:B1;
      rewrite ?Z.eqb_eq, ?Z.eqb_neq in *;
      rewrite ?Z.geb_leb in *; rewrite ?Z.leb_le, ?Z.leb_gt in *;
      try lia.
    + assert (0 <= q2 / 2) by (apply Z.div_pos; lia). lia.
    + assert (q1 / 2 < 50) by (apply Z.div_lt_upper_bound; lia). lia.
    + assert (q1 / 2 <= q2 / 2) by (apply Z.div_le_mono; lia). lia.
Qed.

Lemma QualityToRSSI_range_monotone_witness :
  -100 <= QualityToRSSI 37 <= -50 /\ QualityToRSSI 37 <= QualityToRSSI 4000000000.
Proof.
  assert (H1 : is_ULONG 37) by (unfold is_ULONG, ULONG_MAX; lia).
  assert (H2 : is_ULONG 4000000000) by (unfold is_ULONG, ULONG_MAX; lia).
  destruct (QualityToRSSI_range_monotone 37 4000000000 H1 H2) as (R & Mono & _).
  split; [exact R | apply Mono; lia].
Defined.

(** ** Connectivity flags *)

Section Flags.

(** A one-bit mask selects exactly its bit. *)
Lemma has_flag_testbit (c : Z) (k : Z) :
  0 <= k -> has_flag c (2 ^ k) = Z.testbit c k.
Proof.
  intros Hk. unfold has_flag.
  destruct (Z.testbit c k) eqn:B.
  - apply negb_true_iff, Z.eqb_neq. intros E.
    assert (T : Z.testbit (Z.land c (2 ^ k)) k = true)
      by (rewrite Z.land_spec, B, Z.pow2_bits_true; auto).
    rewrite E, Z.bits_0 in T. discriminate.
  - apply negb_false_iff, Z.eqb_eq, Z.bits_inj'. intros n Hn.
    rewrite Z.land_spec, Z.bits_0, Z.pow2_bits_eqb by exact Hk.
    destruct (Z.eqb_spec k n) as [->|]; [rewrite B; reflexivity|].
    apply andb_false_r.
Qed.

Lemma hasInternet_bits (c : Z) :
  hasInternet c = Z.testbit c 6 || Z.testbit c 10.
Proof.
  unfold hasInternet.
  change NLM_CONNECTIVITY_IPV4_INTERNET with (2 ^ 6).
  change NLM_CONNECTIVITY_IPV6_INTERNET with (2 ^ 10).
  rewrite !has_flag_testbit by lia. reflexivity.
Qed.

End Flags.

(** C7.  For every connectivity value the derived [hasInternet] is true
    iff the IPv4-Internet flag or the IPv6-Internet flag is set, and the
    message posted carries 1 in that case and 0 otherwise; every
    combination of the other flags (no traffic, subnet, local network, on
    either protocol), and the disconnected value, derives [false]. *)
Theorem hasInternet_iff (connectivity : Z) (w : World) :
  (hasInternet connectivity = true <->
     has_flag connectivity NLM_CONNECTIVITY_IPV4_INTERNET = true \/
     has_flag connectivity NLM_CONNECTIVITY_IPV6_INTERNET = true) /\
  (hasInternet connectivity = true <->
     Z.testbit connectivity 6 = true \/ Z.testbit connectivity 10 = true) /\
  sendNetworkStatusMessage connectivity w =
    Ok tt (mkWorld (globals w) (platform w)
             (posted w ++ [mkMsg (g_mainThreadId (globals w)) WM_NETWORK_STATUS_CHANGE
                                 (if hasInternet connectivity then 1 else 0) 0])
             (console w) (calls w)) /\
  hasInternet NLM_CONNECTIVITY_DISCONNECTED = false /\
  forallb (fun l => negb (hasInternet (flags_of l))) (sublists no_internet_flags) = true.
Proof.
  split; [|split; [|split; [|split]]].
  - unfold hasInternet. apply orb_true_iff.
  - rewrite hasInternet_bits. apply orb_true_iff.
  - unfold sendNetworkStatusMessage, bind, get_globals, PostThreadMessage.
    destruct (hasInternet connectivity); reflexivity.
  - reflexivity.
  - vm_compute. reflexivity.
Qed.

(** ** The wireless hysteresis state machine *)

Section Hysteresis.

Lemma app_one_neq {A} (l : list A) (x : A) : l ++ [x] <> l.
Proof.
  intros E. apply (f_equal (@List.length A)) in E.
  rewrite length_app in E. simpl in E. lia.
Qed.

Local Arguments QualityToRSSI : simpl never.

Ltac open_world w :=
  destruct w as [[tid conn nlm cpc cp ev cookie hc [drop rec weak lq]] pf po co ca].

(** One notification: the run ends normally, the thresholds and the
    thread id stay, [lastQuality] is the new quality, and the branch
    taken depends on the state and on the threshold of that state. *)
Lemma notify_step (w : World) (size q : Z) :
  sizeof_ULONG <= size ->
  exists w',
    WlanNotificationCallback (quality_notification size q) (Some Addr_monitorCtx) w = Ok tt w' /\
    thresholdDrop (ctx_of w') = thresholdDrop (ctx_of w) /\
    thresholdRecover (ctx_of w') = thresholdRecover (ctx_of w) /\
    g_mainThreadId (globals w') = g_mainThreadId (globals w) /\
    lastQuality (ctx_of w') = q /\
    (isSignalWeak (ctx_of w) = false ->
       if q <=? thresholdDrop (ctx_of w)
       then posted w' = posted w ++ [signal_msg w q] /\ isSignalWeak (ctx_of w') = true
       else posted w' = posted w /\ isSignalWeak (ctx_of w') = false) /\
    (isSignalWeak (ctx_of w) = true ->
       if q >=? thresholdRecover (ctx_of w)
       then posted w' = posted w ++ [signal_msg w q] /\ isSignalWeak (ctx_of w') = false
       else posted w' = posted w /\ isSignalWeak (ctx_of w') = true).
Proof.
  intros Hsize. open_world w.
  unfold WlanNotificationCallback, quality_notification, when. cbn [NotificationSource
    NotificationCode dwDataSize pData].
  change (WLAN_NOTIFICATION_SOURCE_MSM =? WLAN_NOTIFICATION_SOURCE_MSM) with true.
  change (wlan_notification_msm_signal_quality_change
            =? wlan_notification_msm_signal_quality_change) with true.
  cbv iota.
  assert (S : (size >=? sizeof_ULONG) = true) by (rewrite Z.geb_leb; apply Z.leb_le; exact Hsize).
  rewrite S. unfold ctx_of, signal_msg. cbn.
  destruct weak; cbn.
  - destruct (q >=? rec); cbn; eexists; (split; [reflexivity|]); cbn;
      repeat split; auto; discriminate.
  - destruct (q <=? drop); cbn; eexists; (split; [reflexivity|]); cbn;
      repeat split; auto; discriminate.
Qed.

End Hysteresis.

(** C1.  From the state [!isSignalWeak] a signal-quality notification [q]
    posts a signal-change message and sets [isSignalWeak] iff
    [q <= thresholdDrop]; from the state [isSignalWeak] it posts one and
    clears [isSignalWeak] iff [q >= thresholdRecover].  With thresholds 40
    and 50 and the state strong, the qualities 60, 45, 38, 42, 55 post
    exactly two messages: at 38, where the state becomes weak, and at 55,
    where it becomes strong again; 60, 45 and 42 post nothing. *)
Theorem hysteresis_transitions (w : World) (q : Z) :
  (exists w',
     notify q w = Ok tt w' /\
     (isSignalWeak (ctx_of w) = false ->
        ((posted w' <> posted w) <-> q <= thresholdDrop (ctx_of w)) /\
        (posted w' = posted w ++ [signal_msg w q] <-> q <= thresholdDrop (ctx_of w)) /\
        (isSignalWeak (ctx_of w') = true <-> q <= thresholdDrop (ctx_of w))) /\
     (isSignalWeak (ctx_of w) = true ->
        ((posted w' <> posted w) <-> q >= thresholdRecover (ctx_of w)) /\
        (posted w' = posted w ++ [signal_msg w q] <-> q >= thresholdRecover (ctx_of w)) /\
        (isSignalWeak (ctx_of w') = false <-> q >= thresholdRecover (ctx_of w)))) /\
  (thresholdDrop (ctx_of w) = 40 -> thresholdRecover (ctx_of w) = 50 ->
   isSignalWeak (ctx_of w) = false ->
   exists w1 w2 w3 w4 w5,
     notify 60 w = Ok tt w1 /\ posted w1 = posted w /\ isSignalWeak (ctx_of w1) = false /\
     notify 45 w1 = Ok tt w2 /\ posted w2 = posted w1 /\ isSignalWeak (ctx_of w2) = false /\
     notify 38 w2 = Ok tt w3 /\ posted w3 = posted w2 ++ [signal_msg w 38] /\
       isSignalWeak (ctx_of w3) = true /\
     notify 42 w3 = Ok tt w4 /\ posted w4 = posted w3 /\ isSignalWeak (ctx_of w4) = true /\
     notify 55 w4 = Ok tt w5 /\ posted w5 = posted w4 ++ [signal_msg w 55] /\
       isSignalWeak (ctx_of w5) = false /\
     posted w5 = posted w ++ [signal_msg w 38; signal_msg w 55]).
Proof.
  assert (Hsz : sizeof_ULONG <= sizeof_ULONG) by apply Z.le_refl.
  split.
  - destruct (notify_step w sizeof_ULONG q Hsz) as (w' & Run & _ & _ & _ & _ & Strong & Weak).
    exists w'. split; [exact Run|]. split.
    + intros S. specialize (Strong S).
      destruct (Z.leb_spec q (thresholdDrop (ctx_of w))) as [L|L];
        destruct Strong as [P F]; rewrite P, F.
      * repeat split; intros; auto using app_one_neq.
      * repeat split; intros; try lia; try congruence.
        exfalso. eapply app_one_neq. symmetry. eassumption.
    + intros S. specialize (Weak S). rewrite Z.geb_leb in Weak.
      destruct (Z.leb_spec (thresholdRecover (ctx_of w)) q) as [L|L];
        destruct Weak as [P F]; rewrite P, F.
      * repeat split; intros; auto using app_one_neq; lia.
      * repeat split; intros; try lia; try congruence.
        exfalso. eapply app_one_neq. symmetry. eassumption.
  - intros D R S.
    destruct (notify_step w sizeof_ULONG 60 Hsz) as (w1 & Run1 & D1 & R1 & T1 & _ & St1 & _).
    specialize (St1 S). rewrite D in St1. cbn in St1. destruct St1 as [P1 S1].
    destruct (notify_step w1 sizeof_ULONG 45 Hsz) as (w2 & Run2 & D2 & R2 & T2 & _ & St2 & _).
    specialize (St2 S1). rewrite D1, D in St2. cbn in St2. destruct St2 as [P2 S2].
    destruct (notify_step w2 sizeof_ULONG 38 Hsz) as (w3 & Run3 & D3 & R3 & T3 & _ & St3 & _).
    specialize (St3 S2). rewrite D2, D1, D in St3. cbn in St3. destruct St3 as [P3 S3].
    destruct (notify_step w3 sizeof_ULONG 42 Hsz) as (w4 & Run4 & D4 & R4 & T4 & _ & _ & Wk4).
    specialize (Wk4 S3). rewrite R3, R2, R1, R in Wk4. cbn in Wk4. destruct Wk4 as [P4 S4].
    destruct (notify_step w4 sizeof_ULONG 55 Hsz) as (w5 & Run5 & D5 & R5 & T5 & _ & _ & Wk5).
    specialize (Wk5 S4). rewrite R4, R3, R2, R1, R in Wk5. cbn in Wk5. destruct Wk5 as [P5 S5].
    assert (M3 : signal_msg w2 38 = signal_msg w 38)
      by (unfold signal_msg; rewrite T2, T1; reflexivity).
    assert (M5 : signal_msg w4 55 = signal_msg w 55)
      by (unfold signal_msg; rewrite T4, T3, T2, T1; reflexivity).
    rewrite M3 in P3. rewrite M5 in P5.
    exists w1, w2, w3, w4, w5. unfold notify.
    repeat (split; [assumption|]).
    rewrite P5, P4, P3, P2, P1, <- app_assoc. reflexivity.
Qed.

Lemma hysteresis_transitions_witness :
  exists w5,
    for_each notify [60; 45; 38; 42; 55] initial_world = Ok tt w5 /\
    posted w5 = [mkMsg 0 WM_WIFI_SIGNAL_CHANGE 38 (-81); mkMsg 0 WM_WIFI_SIGNAL_CHANGE 55 (-73)].
Proof.
  destruct (hysteresis_transitions initial_world 0) as [_ Seq].
  destruct (Seq eq_refl eq_refl eq_refl)
    as (w1 & w2 & w3 & w4 & w5 & R1 & _ & _ & R2 & _ & _ & R3 & _ & _ & R4 & _ & _ & R5 & _ & _ & P).
  exists w5. split.
  - cbn [for_each]. unfold bind at 1. rewrite R1.
    unfold bind at 1. rewrite R2. unfold bind at 1. rewrite R3.
    unfold bind at 1. rewrite R4. unfold bind at 1. rewrite R5. reflexivity.
  - rewrite P. reflexivity.
Defined.

(** C9.  After every MSM signal-quality notification that carries a
    quality [q], [lastQuality] equals [q]: it is written after the
    branches, whichever was taken (drop, recover or neither). *)
Theorem lastQuality_always_updated (w : World) (size q : Z) :
  sizeof_ULONG <= size ->
  exists w',
    WlanNotificationCallback (quality_notification size q) (Some Addr_monitorCtx) w = Ok tt w' /\
    lastQuality (ctx_of w') = q.
Proof.
  intros Hsize.
  destruct (notify_step w size q Hsize) as (w' & Run & _ & _ & _ & L & _).
  exists w'. split; assumption.
Qed.

Lemma lastQuality_always_updated_witness :
  exists w',
    WlanNotificationCallback (quality_notification 4 38) (Some Addr_monitorCtx) initial_world
      = Ok tt w' /\
    lastQuality (ctx_of w') = 38.
Proof.
  apply (lastQuality_always_updated initial_world 4 38).
  unfold sizeof_ULONG. lia.
Defined.

(** ** The connectivity subscriber *)

Section Connectivity.

Lemma set_networkConnected_same (g : Globals) :
  set_networkConnected (g_networkConnected g) g = g.
Proof. destruct g; reflexivity. Qed.

Lemma set_networkConnected_twice (a b : bool) (g : Globals) :
  set_networkConnected b (set_networkConnected a g) = set_networkConnected b g.
Proof. reflexivity. Qed.

Lemma prints_only_say (l : Line) : prints_only (say l).
Proof.
  intros w. eexists; exists (g_networkConnected (globals w)).
  split; [reflexivity|]. cbn. rewrite set_networkConnected_same. auto.
Qed.

Lemma prints_only_connected (b : bool) : prints_only (modify_globals (set_networkConnected b)).
Proof. intros w. eexists; exists b. split; [reflexivity|]. cbn. auto. Qed.

Lemma prints_only_ret : prints_only (ret tt).
Proof.
  intros w. exists w, (g_networkConnected (globals w)).
  rewrite set_networkConnected_same. auto.
Qed.

Lemma prints_only_seq (c1 c2 : M unit) :
  prints_only c1 -> prints_only c2 -> prints_only (c1 ;; c2).
Proof.
  intros H1 H2 w.
  destruct (H1 w) as (w1 & b1 & R1 & G1 & P1 & Q1 & C1).
  destruct (H2 w1) as (w2 & b2 & R2 & G2 & P2 & Q2 & C2).
  exists w2, b2. unfold bind. rewrite R1. split; [exact R2|].
  rewrite G2, G1, P2, P1, Q2, Q1, C2, C1. auto.
Qed.

Lemma prints_only_when (b : bool) (c : M unit) :
  prints_only c -> prints_only (when b c).
Proof. destruct b; cbn; auto using prints_only_ret. Qed.

Lemma prints_only_PrintConnectivity (connectivity : Z) :
  prints_only (PrintConnectivity connectivity).
Proof.
  unfold PrintConnectivity.
  apply prints_only_seq; [apply prints_only_say|].
  destruct (connectivity =? NLM_CONNECTIVITY_DISCONNECTED);
    repeat first [ apply prints_only_seq | apply prints_only_when
                 | apply prints_only_say | apply prints_only_connected ].
Qed.

Lemma sendNetworkStatusMessage_run (connectivity : Z) (w : World) :
  sendNetworkStatusMessage connectivity w =
    Ok tt (mkWorld (globals w) (platform w) (posted w ++ [status_msg w connectivity])
                   (console w) (calls w)).
Proof.
  unfold sendNetworkStatusMessage, status_msg, bind, get_globals, PostThreadMessage.
  destruct (hasInternet connectivity); reflexivity.
Qed.

(** One notification to a live sink posts one message, which carries
    [hasInternet]; the sink and the registrations stay as they are. *)
Lemma ConnectivityChanged_run (this : nat) (connectivity : Z) (w : World) :
  live this w ->
  exists w',
    ConnectivityChanged this connectivity w = Ok S_OK w' /\
    posted w' = posted w ++ [status_msg w connectivity] /\
    platform w' = platform w /\
    g_mainThreadId (globals w') = g_mainThreadId (globals w).
Proof.
  intros [n Hn].
  destruct (prints_only_PrintConnectivity connectivity w) as (w1 & b & R1 & G1 & P1 & Q1 & C1).
  unfold ConnectivityChanged, NetEvents.this_lRef, bind, get_platform. rewrite Hn.
  unfold ret at 1. rewrite R1, sendNetworkStatusMessage_run.
  eexists. split; [reflexivity|]. cbn.
  unfold status_msg. rewrite G1, Q1, P1. auto.
Qed.

End Connectivity.

(** C2, as the code has it.  Every connectivity notification delivered to
    a live sink posts exactly one status message carrying the derived
    [hasInternet] (1 or 0); what was posted before plays no part. *)
Theorem every_notification_posts (this : nat) (connectivity : Z) (w : World) :
  live this w ->
  exists w',
    ConnectivityChanged this connectivity w = Ok S_OK w' /\
    posted w' = posted w ++ [status_msg w connectivity] /\
    wParam (status_msg w connectivity) = (if hasInternet connectivity then 1 else 0).
Proof.
  intros L.
  destruct (ConnectivityChanged_run this connectivity w L) as (w' & R & P & _).
  exists w'. auto.
Qed.

Lemma every_notification_posts_witness :
  exists w',
    ConnectivityChanged 0 NLM_CONNECTIVITY_IPV4_INTERNET advised_world = Ok S_OK w' /\
    posted w' = [mkMsg 0 WM_NETWORK_STATUS_CHANGE 1 0].
Proof.
  assert (L : live 0 advised_world) by (exists 2; reflexivity).
  destruct (every_notification_posts 0 NLM_CONNECTIVITY_IPV4_INTERNET advised_world L)
    as (w' & R & P & _).
  exists w'. split; [exact R | exact P].
Defined.

(** C2, as the claim states it, fails: the same notification delivered
    twice posts a second, identical message. *)
Lemma repeated_notification_posts_again :
  ~ (forall (this : nat) (c : Z) (w w1 w2 : World),
       ConnectivityChanged this c w = Ok S_OK w1 ->
       ConnectivityChanged this c w1 = Ok S_OK w2 ->
       posted w2 = posted w1).
Proof.
  intros H.
  assert (L : live 0 advised_world) by (exists 2; reflexivity).
  destruct (ConnectivityChanged_run 0 NLM_CONNECTIVITY_IPV4_INTERNET advised_world L)
    as (w1 & R1 & P1 & F1 & _).
  assert (L1 : live 0 w1) by (unfold live; rewrite F1; exists 2; reflexivity).
  destruct (ConnectivityChanged_run 0 NLM_CONNECTIVITY_IPV4_INTERNET w1 L1)
    as (w2 & R2 & P2 & _).
  specialize (H _ _ _ _ _ R1 R2). rewrite P2 in H.
  exact (app_one_neq _ _ H).
Qed.

(** ** Start-up *)

Section Start.

Lemma FAILED_SUCCEEDED (hr : Z) : FAILED hr = negb (SUCCEEDED hr).
Proof. unfold FAILED, SUCCEEDED. rewrite Z.leb_antisym, negb_involutive. reflexivity. Qed.

Lemma nth_error_fresh {A} (l : list A) (x : A) : nth_error (l ++ [x]) (List.length l) = Some x.
Proof. rewrite nth_error_app2, Nat.sub_diag by lia. reflexivity. Qed.

(** symbolic execution of the program monad, leaving arithmetic, lists
    and [PrintConnectivity] folded *)
Ltac run :=
  cbv beta iota zeta delta
    [bind ret fault when call say modify_globals modify_platform get_globals get_platform
     PostThreadMessage LogInfo LogError LogFunc
     NetEvents.new_CNetworkListManagerEvents NetEvents.this_lRef NetEvents.set_this
     NetEvents.AddRef NetEvents.Release NetEvents.QueryInterface
     platform_Advise platform_Unadvise
     get_monitorCtx modify_monitorCtx
     platform_WlanOpenHandle platform_WlanRegisterNotification platform_WlanCloseHandle
     set_heap set_advised set_wlan_open set_wlan_notify];
  cbn [globals platform posted console calls heap advised wlan_open wlan_notify fst snd].

Ltac open_answers N :=
  destruct N as [ci [cc pc] [qi pq] [fc pf] [ad ck] [gc conn]];
  cbn [a_CoInitializeEx a_CoCreateInstance a_QueryInterface a_FindConnectionPoint
       a_Advise a_GetConnectivity fst snd] in *.

Lemma StartNetworkMonitor_registered (N : NlmAnswers) (w : World) :
  registers N = true ->
  exists w',
    StartNetworkMonitor N w = Ok 0 w' /\
    calls w' = calls w ++ [CoInitializeEx; CoCreateInstance; NLM_QueryInterface;
                           CPC_FindConnectionPoint;
                           CP_Advise (List.length (heap (platform w)));
                           NLM_GetConnectivity] /\
    posted w' = posted w ++ initial_event N w.
Proof.
  unfold registers, initial_event. rewrite !andb_true_iff.
  open_answers N.
  intros [[[[H1 H2] H3] H4] H5].
  destruct w as [g [hp adv wo wn] po co ca].
  unfold StartNetworkMonitor.
  cbn [a_CoInitializeEx a_CoCreateInstance a_QueryInterface a_FindConnectionPoint
       a_Advise a_GetConnectivity fst snd].
  rewrite !FAILED_SUCCEEDED, H1, H2, H3. cbn [negb].
  repeat (run; rewrite ?H4, ?H5, ?nth_error_fresh).
  rewrite <- !app_assoc. cbn [app].
  destruct (SUCCEEDED gc); cbn [andb].
  - match goal with |- context [PrintConnectivity conn ?w] =>
      destruct (prints_only_PrintConnectivity conn w) as (w1 & b & R1 & G1 & P1 & Q1 & C1);
      rewrite R1
    end.
    cbn [globals platform posted console calls] in G1, P1, Q1, C1.
    destruct (conn =? NLM_CONNECTIVITY_DISCONNECTED);
      (eexists; split; [reflexivity|]); cbn [calls posted];
      rewrite ?G1, ?Q1, ?C1; split; try reflexivity.
    rewrite app_nil_r. reflexivity.
  - eexists; split; [reflexivity|]. cbn [calls posted]. rewrite app_nil_r. split; reflexivity.
Qed.

End Start.

(** C3, as the code has it.  When the registration of the connectivity
    subscriber succeeds, [StartNetworkMonitor] makes one [GetConnectivity]
    query right after [Advise]; it posts one initial message, carrying 0,
    when the query succeeds and answers [NLM_CONNECTIVITY_DISCONNECTED],
    and posts nothing for any other answer. *)
Theorem initial_snapshot_only_when_disconnected (N : NlmAnswers) (w : World) :
  registers N = true ->
  exists w',
    StartNetworkMonitor N w = Ok 0 w' /\
    calls w' = calls w ++ [CoInitializeEx; CoCreateInstance; NLM_QueryInterface;
                           CPC_FindConnectionPoint;
                           CP_Advise (List.length (heap (platform w)));
                           NLM_GetConnectivity] /\
    posted w' = posted w ++ initial_event N w /\
    (SUCCEEDED (fst (a_GetConnectivity N)) = true ->
     snd (a_GetConnectivity N) = NLM_CONNECTIVITY_DISCONNECTED ->
     posted w' = posted w ++ [mkMsg (g_mainThreadId (globals w)) WM_NETWORK_STATUS_CHANGE 0 0]) /\
    (snd (a_GetConnectivity N) <> NLM_CONNECTIVITY_DISCONNECTED -> posted w' = posted w).
Proof.
  intros R.
  destruct (StartNetworkMonitor_registered N w R) as (w' & Run & C & P).
  exists w'. repeat split; try assumption.
  - intros S D. rewrite P. unfold initial_event. rewrite S, D. reflexivity.
  - intros D. rewrite P. unfold initial_event.
    apply Z.eqb_neq in D. rewrite D, andb_false_r, app_nil_r. reflexivity.
Qed.

Lemma initial_snapshot_only_when_disconnected_witness :
  exists w',
    StartNetworkMonitor nlm_ok initial_world = Ok 0 w' /\ posted w' = [].
Proof.
  destruct (initial_snapshot_only_when_disconnected nlm_ok initial_world eq_refl)
    as (w' & Run & _ & P & _).
  exists w'. split; [exact Run | exact P].
Defined.

(** C3, as the claim states it, fails: the registration succeeds, the
    query answers "Internet over IPv4", and no initial message is posted. *)
Lemma no_initial_event_when_connected :
  ~ (forall (N : NlmAnswers) (w w' : World),
       registers N = true ->
       SUCCEEDED (fst (a_GetConnectivity N)) = true ->
       StartNetworkMonitor N w = Ok 0 w' ->
       exists m, posted w' = posted w ++ [m]).
Proof.
  intros H.
  destruct (StartNetworkMonitor_registered nlm_ok initial_world eq_refl) as (w' & Run & _ & P).
  destruct (H nlm_ok initial_world w' eq_refl eq_refl Run) as [m Hm].
  rewrite P in Hm. discriminate Hm.
Qed.

Section WlanStart.

Lemma is_open_fresh (h : Z) (p : Platform) (l : list Z) :
  wlan_open p = h :: l -> is_open (Some h) p = true.
Proof. intros E. unfold is_open. rewrite E. cbn. rewrite Z.eqb_refl. reflexivity. Qed.

Ltac run :=
  cbv beta iota zeta delta
    [bind ret fault when call say modify_globals modify_platform get_globals get_platform
     PostThreadMessage LogInfo LogError LogFunc
     get_monitorCtx modify_monitorCtx
     platform_WlanOpenHandle platform_WlanRegisterNotification platform_WlanCloseHandle
     set_heap set_advised set_wlan_open set_wlan_notify];
  cbn [globals platform posted console calls heap advised wlan_open wlan_notify fst snd
       g_hClient set_hClient monitorCtx set_monitorCtx set_isSignalWeak set_lastQuality
       thresholdDrop thresholdRecover isSignalWeak lastQuality g_mainThreadId
       andb negb].

Lemma StartWlanMonitor_run (W : WlanAnswers) (w : World) :
  exists w',
    StartWlanMonitor W w = Ok (wlan_start_result W) w' /\
    thresholdDrop (ctx_of w') = thresholdDrop (ctx_of w) /\
    thresholdRecover (ctx_of w') = thresholdRecover (ctx_of w) /\
    posted w' = posted w /\
    (if baseline_taken W
     then isSignalWeak (ctx_of w')
            = (snd (snd (a_WlanQueryInterface W)) <=? thresholdDrop (ctx_of w)) /\
          lastQuality (ctx_of w') = snd (snd (a_WlanQueryInterface W))
     else ctx_of w' = ctx_of w).
Proof.
  destruct W as [[ro h] [re n] [rq [st q]] rr].
  destruct w as [[tid conn nlm cpc cp ev cookie hc [drop rec weak lq]] [hp adv wo wn] po co ca].
  unfold StartWlanMonitor, wlan_start_result, baseline_taken, ctx_of.
  cbn [a_WlanOpenHandle a_WlanEnumInterfaces a_WlanQueryInterface a_WlanRegisterNotification
       fst snd].
  assert (Oh : forall l, existsb (Z.eqb h) (h :: l) = true)
    by (intros l; cbn; rewrite Z.eqb_refl; reflexivity).
  destruct (ro =? ERROR_SUCCESS) eqn:Ero; destruct (re =? ERROR_SUCCESS) eqn:Ere;
    destruct (n >? 0) eqn:En; destruct (rq =? ERROR_SUCCESS) eqn:Erq;
    destruct (st =? wlan_interface_state_connected) eqn:Est;
    destruct (q <=? drop) eqn:Eq; destruct (rr =? ERROR_SUCCESS) eqn:Err;
    repeat (run; unfold is_open; rewrite ?Ero, ?Ere, ?En, ?Erq, ?Est, ?Eq, ?Err, ?Oh);
    (eexists; split; [reflexivity|]); cbn; auto.
Qed.

End WlanStart.

(** C6, as the code has it.  [StartWlanMonitor] makes no check of the
    thresholds: whatever they are, it fails only when the client handle
    cannot be opened or the notification cannot be registered; it leaves
    the thresholds as they are, posts nothing, and when the first
    interface is connected with quality [q] it takes the baseline
    [isSignalWeak = (q <= thresholdDrop)], [lastQuality = q].  The
    context of the program holds the thresholds 40 and 50. *)
Theorem wlan_start_ignores_threshold_order (W : WlanAnswers) (w : World) :
  (exists w',
     StartWlanMonitor W w = Ok (wlan_start_result W) w' /\
     thresholdDrop (ctx_of w') = thresholdDrop (ctx_of w) /\
     thresholdRecover (ctx_of w') = thresholdRecover (ctx_of w) /\
     posted w' = posted w /\
     (if baseline_taken W
      then isSignalWeak (ctx_of w')
             = (snd (snd (a_WlanQueryInterface W)) <=? thresholdDrop (ctx_of w)) /\
           lastQuality (ctx_of w') = snd (snd (a_WlanQueryInterface W))
      else ctx_of w' = ctx_of w)) /\
  thresholdDrop (ctx_of initial_world) = 40 /\
  thresholdRecover (ctx_of initial_world) = 50.
Proof.
  split; [apply StartWlanMonitor_run | split; reflexivity].
Qed.

(** C6, as the claim states it, fails: with [thresholdRecover = 40] below
    [thresholdDrop = 50], initialization reports no error and takes the
    baseline. *)
Lemma inverted_thresholds_accepted :
  thresholdRecover (ctx_of inverted_world) <= thresholdDrop (ctx_of inverted_world) /\
  (exists w',
     StartWlanMonitor wlan_ok inverted_world = Ok 0 w' /\
     isSignalWeak (ctx_of w') = true /\ lastQuality (ctx_of w') = 45 /\
     wlan_notify (platform w') = Some (2000, WLAN_NOTIFICATION_SOURCE_MSM)) /\
  ~ (forall (W : WlanAnswers) (w : World),
       thresholdRecover (ctx_of w) <= thresholdDrop (ctx_of w) ->
       exists w', StartWlanMonitor W w = Ok 1 w' /\ ctx_of w' = ctx_of w).
Proof.
  split; [cbn; lia|]. split.
  - eexists. split; [vm_compute; reflexivity|]. cbn. auto.
  - intros H.
    destruct (H wlan_ok inverted_world) as (w' & Run & _); [cbn; lia|].
    vm_compute in Run. discriminate Run.
Qed.

(** ** Teardown *)

Section Teardown.

Lemma nth_error_store {A} (l : list A) (i : nat) (x v : A) :
  nth_error l i = Some x -> nth_error (NetEvents.store l i v) i = Some v.
Proof.
  revert i. induction l as [|a l IH]; intros [|i] H; cbn in *; try discriminate; auto.
Qed.

Ltac run :=
  cbv beta iota zeta delta
    [bind ret fault when call say modify_globals modify_platform get_globals get_platform
     PostThreadMessage LogInfo LogError LogFunc
     NetEvents.this_lRef NetEvents.set_this NetEvents.Release
     platform_Unadvise SafeRelease StopNetworkMonitor StopWlanMonitor OnExit
     platform_WlanRegisterNotification platform_WlanCloseHandle
     set_heap set_advised set_wlan_open set_wlan_notify];
  cbn [globals platform posted console calls heap advised wlan_open wlan_notify fst snd
       g_hClient g_pConnectPoint g_pCPContainer g_pNetworkListManager g_pNetEvents g_dwCookie
       set_pConnectPoint set_pCPContainer set_pNetworkListManager].

Ltac open_started w H :=
  destruct w as [[tid conn gnlm gcpc gcp ev cookie hc ctx] [hp adv wo wn] po co ca];
  destruct H as (Hcp & Hcpc & Hnlm & Hev & Hlive & Hadv & Hh & Hopen);
  cbn [globals platform heap advised wlan_open g_hClient g_pConnectPoint g_pCPContainer
       g_pNetworkListManager g_pNetEvents g_dwCookie] in *;
  subst gcp gcpc gnlm ev hc;
  unfold is_open in Hopen; cbn [wlan_open] in Hopen;
  destruct (remove_cookie cookie adv) as [r rest] eqn:Hrm; cbn [fst] in Hadv; subst r.

(** The first [StopNetworkMonitor] of a started world succeeds and
    destroys the sink, and leaves [g_pNetEvents] pointing at it. *)
Lemma StopNetworkMonitor_started (w : World) (cp cpc nlm : Z) (obj : nat) (h : Z) :
  fully_started w cp cpc nlm obj h ->
  exists w',
    StopNetworkMonitor w = Ok tt w' /\
    calls w' = calls w ++ [CP_Unadvise (g_dwCookie (globals w)); NetEvents_Release obj;
                           IUnknown_Release cp; IUnknown_Release cpc; IUnknown_Release nlm;
                           CoUninitialize] /\
    posted w' = posted w /\
    g_pConnectPoint (globals w') = None /\
    g_pNetEvents (globals w') = Some obj /\
    nth_error (heap (platform w')) obj = Some Deleted /\
    g_hClient (globals w') = Some h /\
    wlan_open (platform w') = wlan_open (platform w).
Proof.
  intros H. open_started w H.
  run. rewrite Hrm. run. rewrite Hlive. run.
  change (wrap_int (2 - 1) =? 0) with false. run.
  rewrite (nth_error_store _ _ _ (Live (wrap_int (2 - 1))) Hlive). run.
  change (wrap_int (wrap_int (2 - 1) - 1) =? 0) with true. run.
  eexists. split; [reflexivity|].
  cbn [globals platform posted console calls heap advised wlan_open wlan_notify
       g_hClient g_pConnectPoint g_pNetEvents].
  rewrite <- !app_assoc. cbn [app].
  repeat split; try reflexivity.
  apply nth_error_store with (x := Live (wrap_int (2 - 1))).
  apply nth_error_store with (x := Live 2). exact Hlive.
Qed.

(** The guard of [StopNetworkMonitor] on [g_pNetEvents] lets a destroyed
    sink through. *)
Lemma StopNetworkMonitor_dangling (w : World) (obj : nat) :
  g_pConnectPoint (globals w) = None ->
  g_pNetEvents (globals w) = Some obj ->
  nth_error (heap (platform w)) obj = Some Deleted ->
  StopNetworkMonitor w
    = Fault "CNetworkListManagerEvents: method called on a destroyed object".
Proof.
  destruct w as [[tid conn gnlm gcpc gcp ev cookie hc ctx] [hp adv wo wn] po co ca].
  cbn [globals platform heap g_pConnectPoint g_pNetEvents].
  intros -> -> Hd. run. rewrite Hd. reflexivity.
Qed.

Lemma StopWlanMonitor_open (w : World) (h : Z) :
  g_hClient (globals w) = Some h ->
  is_open (Some h) (platform w) = true ->
  exists w',
    StopWlanMonitor w = Ok tt w' /\
    calls w' = calls w ++ [WlanRegisterNotification (Some h) WLAN_NOTIFICATION_SOURCE_NONE;
                           WlanCloseHandle (Some h)] /\
    posted w' = posted w /\ globals w' = globals w /\
    heap (platform w') = heap (platform w).
Proof.
  destruct w as [[tid conn gnlm gcpc gcp ev cookie hc ctx] [hp adv wo wn] po co ca].
  unfold is_open. cbn [globals platform wlan_open g_hClient].
  intros -> Hopen.
  repeat (run; unfold is_open; cbn [wlan_open]; rewrite ?Hopen;
          change (ERROR_SUCCESS =? ERROR_SUCCESS) with true;
          change (WLAN_NOTIFICATION_SOURCE_NONE =? WLAN_NOTIFICATION_SOURCE_NONE) with true).
  eexists. split; [reflexivity|]. cbn [calls posted globals platform heap].
  rewrite <- !app_assoc. auto.
Qed.

End Teardown.

(** C4, at the failing input.  After a start in which everything was
    acquired, the first [StopNetworkMonitor] destroys the sink and keeps
    its address in [g_pNetEvents]; a second [StopNetworkMonitor] (directly,
    or through [OnExit] after the teardown of [main]) calls [Release] on
    the destroyed object. *)
Theorem second_StopNetworkMonitor_faults (w : World) (cp cpc nlm : Z) (obj : nat) (h : Z) :
  fully_started w cp cpc nlm obj h ->
  (exists w', StopNetworkMonitor w = Ok tt w' /\
              g_pNetEvents (globals w') = Some obj /\
              nth_error (heap (platform w')) obj = Some Deleted) /\
  (StopNetworkMonitor ;; StopNetworkMonitor) w
    = Fault "CNetworkListManagerEvents: method called on a destroyed object" /\
  (StopNetworkMonitor ;; StopWlanMonitor ;; OnExit) w
    = Fault "CNetworkListManagerEvents: method called on a destroyed object".
Proof.
  intros H.
  destruct (StopNetworkMonitor_started w cp cpc nlm obj h H)
    as (w1 & R1 & C1 & P1 & Gcp & Gev & Hd & Gh & Wo).
  split; [exists w1; auto|]. split.
  - unfold bind at 1. rewrite R1.
    apply StopNetworkMonitor_dangling with (obj := obj); assumption.
  - unfold bind at 1. rewrite R1.
    assert (Op : is_open (Some h) (platform w1) = true).
    { destruct H as (_ & _ & _ & _ & _ & _ & _ & Op).
      unfold is_open in *. rewrite Wo. exact Op. }
    destruct (StopWlanMonitor_open w1 h Gh Op) as (w2 & R2 & C2 & P2 & G2 & Hp2).
    unfold bind at 1. rewrite R2.
    unfold OnExit. unfold bind at 1.
    rewrite (StopNetworkMonitor_dangling w2 obj); [reflexivity| | |].
    + rewrite G2. exact Gcp.
    + rewrite G2. exact Gev.
    + rewrite Hp2. exact Hd.
Qed.

Lemma started_world_fully_started : fully_started started_world 1002 1001 1000 0 2000.
Proof. repeat split; vm_compute; reflexivity. Defined.

Lemma second_StopNetworkMonitor_faults_witness :
  (StopNetworkMonitor ;; StopNetworkMonitor) started_world
    = Fault "CNetworkListManagerEvents: method called on a destroyed object".
Proof.
  destruct (second_StopNetworkMonitor_faults started_world 1002 1001 1000 0 2000
              started_world_fully_started) as (_ & F & _).
  exact F.
Defined.

(** What holds of the teardown: before any start both stop functions run
    without a fault, post nothing and leave the globals as they are, also
    when they run twice. *)
Lemma stop_before_start_safe :
  exists w',
    (StopNetworkMonitor ;; StopWlanMonitor ;; StopNetworkMonitor ;; StopWlanMonitor)
      initial_world = Ok tt w' /\
    posted w' = [] /\ globals w' = initial_globals /\ platform w' = platform initial_world.
Proof. eexists. split; [vm_compute; reflexivity|]. cbn. auto. Qed.

(** [StopWlanMonitor] twice on a started world: the second call gets
    error codes for the closed handle and ignores them. *)
Lemma StopWlanMonitor_twice_safe :
  exists w',
    (StopWlanMonitor ;; StopWlanMonitor) started_world = Ok tt w' /\
    posted w' = posted started_world /\
    new_calls ((StopWlanMonitor ;; StopWlanMonitor) started_world) started_world
      = [WlanRegisterNotification (Some 2000) WLAN_NOTIFICATION_SOURCE_NONE;
         WlanCloseHandle (Some 2000);
         WlanRegisterNotification (Some 2000) WLAN_NOTIFICATION_SOURCE_NONE;
         WlanCloseHandle (Some 2000)].
Proof. eexists. split; [vm_compute; reflexivity|]. split; vm_compute; reflexivity. Qed.

(** C5, as the code has it.  On a world in which everything was acquired,
    the teardown of [OnExit] and of [main] first stops the connectivity
    monitor in the reverse order of its acquisitions (unadvise the sink,
    release the sink object, the connection point, the container, the
    Network List Manager, then [CoUninitialize]), and only after that
    removes the wireless notification and closes the wireless handle. *)
Theorem teardown_order (w : World) (cp cpc nlm : Z) (obj : nat) (h : Z) :
  fully_started w cp cpc nlm obj h ->
  exists w1 w2,
    OnExit w = Ok tt w1 /\
    (StopNetworkMonitor ;; StopWlanMonitor ;; ret 0) w = Ok 0 w2 /\
    calls w1 = calls w2 /\
    calls w2 = calls w ++ [CP_Unadvise (g_dwCookie (globals w));
                           NetEvents_Release obj;
                           IUnknown_Release cp;
                           IUnknown_Release cpc;
                           IUnknown_Release nlm;
                           CoUninitialize;
                           WlanRegisterNotification (Some h) WLAN_NOTIFICATION_SOURCE_NONE;
                           WlanCloseHandle (Some h)].
Proof.
  intros H.
  destruct (StopNetworkMonitor_started w cp cpc nlm obj h H)
    as (w1 & R1 & C1 & P1 & Gcp & Gev & Hd & Gh & Wo).
  assert (Op : is_open (Some h) (platform w1) = true).
  { destruct H as (_ & _ & _ & _ & _ & _ & _ & Op).
    unfold is_open in *. rewrite Wo. exact Op. }
  destruct (StopWlanMonitor_open w1 h Gh Op) as (w2 & R2 & C2 & P2 & G2 & Hp2).
  eexists. exists w2. unfold OnExit.
  unfold bind. rewrite R1, R2. split; [reflexivity|]. split; [reflexivity|].
  split; [reflexivity|].
  rewrite C2, C1, <- app_assoc. reflexivity.
Qed.

Lemma teardown_order_witness :
  exists w1,
    OnExit started_world = Ok tt w1 /\
    calls w1 = calls started_world ++
               [CP_Unadvise 7; NetEvents_Release 0; IUnknown_Release 1002;
                IUnknown_Release 1001; IUnknown_Release 1000; CoUninitialize;
                WlanRegisterNotification (Some 2000) WLAN_NOTIFICATION_SOURCE_NONE;
                WlanCloseHandle (Some 2000)].
Proof.
  destruct (teardown_order started_world 1002 1001 1000 0 2000 started_world_fully_started)
    as (w1 & w2 & R1 & _ & E & C).
  exists w1. split; [exact R1|]. rewrite E. exact C.
Defined.

(** C5, as the claim states it, fails: in the teardown the connectivity
    subscriber is unadvised first and the wireless notification is removed
    after [CoUninitialize], not before everything else. *)
Lemma wireless_unregistered_last :
  let t := new_calls (OnExit started_world) started_world in
  t = [CP_Unadvise 7; NetEvents_Release 0; IUnknown_Release 1002;
       IUnknown_Release 1001; IUnknown_Release 1000; CoUninitialize;
       WlanRegisterNotification (Some 2000) WLAN_NOTIFICATION_SOURCE_NONE;
       WlanCloseHandle (Some 2000)] /\
  new_calls (main 42 nlm_ok wlan_ok [] initial_world) started_world = t /\
  index_of is_unadvise t = Some 0%nat /\
  index_of is_CoUninitialize t = Some 5%nat /\
  index_of is_wlan_unregister t = Some 6%nat /\
  ~ (exists i j, index_of is_wlan_unregister t = Some i /\
                 index_of is_unadvise t = Some j /\ (i < j)%nat).
Proof.
  cbv zeta. split; [vm_compute; reflexivity|].
  split; [vm_compute; reflexivity|].
  split; [vm_compute; reflexivity|].
  split; [vm_compute; reflexivity|].
  split; [vm_compute; reflexivity|].
  intros (i & j & Hi & Hj & Hlt).
  vm_compute in Hi. vm_compute in Hj.
  inversion Hi; inversion Hj; subst. lia.
Qed.

(** ** A whole run of [main] *)

(** On a platform where every call succeeds, with the five signal-quality
    notifications and the same connectivity notification twice, [main]
    ends normally having posted two signal changes and two connectivity
    messages. *)
Example main_run :
  exists w',
    main 42 nlm_ok wlan_ok
         [WlanNotification (quality_notification 4 60);
          WlanNotification (quality_notification 4 45);
          WlanNotification (quality_notification 4 38);
          WlanNotification (quality_notification 4 42);
          WlanNotification (quality_notification 4 55);
          NlmConnectivity NLM_CONNECTIVITY_IPV4_INTERNET;
          NlmConnectivity NLM_CONNECTIVITY_IPV4_INTERNET] initial_world = Ok 0 w' /\
    posted w' = [mkMsg 42 WM_WIFI_SIGNAL_CHANGE 38 (-81);
                 mkMsg 42 WM_WIFI_SIGNAL_CHANGE 55 (-73);
                 mkMsg 42 WM_NETWORK_STATUS_CHANGE 1 0;
                 mkMsg 42 WM_NETWORK_STATUS_CHANGE 1 0].
Proof. eexists. split; vm_compute; reflexivity. Qed.

(** * Further properties *)

(** ** The reference count of the sink *)

Section RefCount.


Lemma wrap_int_LONG (n : Z) : is_LONG (wrap_int n).
Proof.
  unfold is_LONG, INT_MIN, INT_MAX, wrap_int.
  pose proof (Z.mod_pos_bound (n + 2 ^ 31) (2 ^ 32) ltac:(lia)). lia.
Qed.





Ltac run :=
  cbv beta iota zeta delta
    [bind ret fault when call say modify_globals modify_platform get_globals get_platform
     NetEvents.this_lRef NetEvents.set_this
     NetEvents.AddRef NetEvents.Release NetEvents.QueryInterface
     set_heap set_advised set_wlan_open set_wlan_notify];
  cbn [globals platform posted console calls heap advised wlan_open wlan_notify fst snd].



End RefCount.







(** ** QualityToRSSI, read backwards *)

(** X4.  Inside the range 0..100 the quality is recovered from the RSSI up
    to one point: [2 * (rssi + 100)] is [q] or [q - 1].  Above 100 every
    quality gives the RSSI of 100. *)
Theorem QualityToRSSI_inverse_within_one (q : Z) :
  is_ULONG q ->
  (q <= 100 -> 0 <= q - 2 * (QualityToRSSI q + 100) <= 1) /\
  (100 <= q -> QualityToRSSI q = QualityToRSSI 100).
Proof.
  intros [Hq _]. rewrite (QualityToRSSI_cases q Hq). split.
  - intros Hle.
    destruct (q =? 0) eqn:E0; [apply Z.eqb_eq in E0; lia|].
    destruct (q >=? 100) eqn:E1.
    + rewrite Z.geb_leb in E1. apply Z.leb_le in E1. lia.
    + pose proof (Z.div_mod q 2 ltac:(lia)).
      pose proof (Z.mod_pos_bound q 2 ltac:(lia)). lia.
  - intros Hge.
    destruct (q =? 0) eqn:E0; [apply Z.eqb_eq in E0; lia|].
    destruct (q >=? 100) eqn:E1; [reflexivity|].
    rewrite Z.geb_leb in E1. apply Z.leb_gt in E1. lia.
Qed.

Lemma QualityToRSSI_inverse_within_one_witness :
  0 <= 77 - 2 * (QualityToRSSI 77 + 100) <= 1.
Proof.
  assert (H : is_ULONG 77) by (unfold is_ULONG, ULONG_MAX; lia).
  destruct (QualityToRSSI_inverse_within_one 77 H) as [In _].
  apply In. lia.
Defined.

(** ** PrintConnectivity and the global flag *)

Section PrintFlag.

Lemma PrintConnectivity_run (connectivity : Z) (w : World) :
  PrintConnectivity connectivity w =
    Ok tt (mkWorld (set_networkConnected
                      (connected_after connectivity (g_networkConnected (globals w)))
                      (globals w))
                   (platform w) (posted w)
                   (console w ++ connectivity_lines connectivity) (calls w)).
Proof.
  destruct w as [[tid conn nlm cpc cp ev cookie hc ctx] p po co ca].
  unfold PrintConnectivity, connectivity_lines, connected_after, flag_line, hasInternet.
  destruct (connectivity =? NLM_CONNECTIVITY_DISCONNECTED).
  - cbv [bind say modify_globals set_networkConnected globals platform posted console calls].
    rewrite <- app_assoc. reflexivity.
  - generalize (has_flag connectivity NLM_CONNECTIVITY_IPV4_NOTRAFFIC);
    generalize (has_flag connectivity NLM_CONNECTIVITY_IPV4_SUBNET);
    generalize (has_flag connectivity NLM_CONNECTIVITY_IPV4_LOCALNETWORK);
    generalize (has_flag connectivity NLM_CONNECTIVITY_IPV4_INTERNET);
    generalize (has_flag connectivity NLM_CONNECTIVITY_IPV6_NOTRAFFIC);
    generalize (has_flag connectivity NLM_CONNECTIVITY_IPV6_SUBNET);
    generalize (has_flag connectivity NLM_CONNECTIVITY_IPV6_LOCALNETWORK);
    generalize (has_flag connectivity NLM_CONNECTIVITY_IPV6_INTERNET).
    intros b8 b7 b6 b5 b4 b3 b2 b1.
    destruct b1, b2, b3, b4, b5, b6, b7, b8, conn;
      cbv [bind when say modify_globals ret set_networkConnected globals platform posted
           console calls g_mainThreadId g_networkConnected g_pNetworkListManager
           g_pCPContainer g_pConnectPoint g_pNetEvents g_dwCookie g_hClient monitorCtx orb];
      rewrite <- ?app_assoc; reflexivity.
Qed.

End PrintFlag.

(** X5.  [PrintConnectivity] clears [g_networkConnected] only for the
    value [NLM_CONNECTIVITY_DISCONNECTED] and sets it for a value with an
    Internet flag; for any other value (local network, subnet, no
    traffic) the flag keeps the value it had.  It posts no message. *)
Theorem PrintConnectivity_flag (connectivity : Z) (w : World) :
  exists w',
    PrintConnectivity connectivity w = Ok tt w' /\
    (connectivity = NLM_CONNECTIVITY_DISCONNECTED -> g_networkConnected (globals w') = false) /\
    (hasInternet connectivity = true -> g_networkConnected (globals w') = true) /\
    (connectivity <> NLM_CONNECTIVITY_DISCONNECTED -> hasInternet connectivity = false ->
       g_networkConnected (globals w') = g_networkConnected (globals w)) /\
    posted w' = posted w /\ platform w' = platform w /\
    console w' = console w ++ connectivity_lines connectivity.
Proof.
  rewrite PrintConnectivity_run. eexists. split; [reflexivity|].
  cbn [globals platform posted console g_networkConnected set_networkConnected].
  unfold connected_after. repeat split.
  - intros ->. reflexivity.
  - intros Hi. destruct (connectivity =? NLM_CONNECTIVITY_DISCONNECTED) eqn:E.
    + apply Z.eqb_eq in E. subst. discriminate Hi.
    + rewrite Hi. reflexivity.
  - intros Hn Hi. apply Z.eqb_neq in Hn. rewrite Hn, Hi. reflexivity.
Qed.

(** X6.  After a connectivity notification the message and the global
    flag can disagree: when the machine had Internet access and the new
    value is neither disconnected nor an Internet value, the message
    carries 0 while [g_networkConnected] stays true.  Whenever the message
    carries 1 the flag is true. *)
Theorem flag_lags_behind_message (this : nat) (connectivity : Z) (w : World) :
  live this w ->
  exists w',
    ConnectivityChanged this connectivity w = Ok S_OK w' /\
    posted w' = posted w ++ [status_msg w connectivity] /\
    (wParam (status_msg w connectivity) = 1 -> g_networkConnected (globals w') = true) /\
    (connectivity <> NLM_CONNECTIVITY_DISCONNECTED -> hasInternet connectivity = false ->
     g_networkConnected (globals w) = true ->
       wParam (status_msg w connectivity) = 0 /\ g_networkConnected (globals w') = true).
Proof.
  intros [n Hn].
  unfold ConnectivityChanged, NetEvents.this_lRef, bind, get_platform. rewrite Hn.
  unfold ret at 1. rewrite PrintConnectivity_run, sendNetworkStatusMessage_run.
  eexists. split; [reflexivity|].
  cbn [globals platform posted g_networkConnected set_networkConnected].
  unfold status_msg, connected_after. cbn [wParam g_mainThreadId set_networkConnected].
  split; [reflexivity|]. split; [|intros Hne Hi Hc; split].
  - destruct (hasInternet connectivity) eqn:Hi; [|discriminate].
    intros _. destruct (connectivity =? NLM_CONNECTIVITY_DISCONNECTED) eqn:E; [|reflexivity].
    apply Z.eqb_eq in E. subst. discriminate Hi.
  - rewrite Hi. reflexivity.
  - apply Z.eqb_neq in Hne. rewrite Hne, Hi, Hc. reflexivity.
Qed.

Lemma flag_lags_behind_message_witness :
  exists w',
    ConnectivityChanged 0 NLM_CONNECTIVITY_IPV4_LOCALNETWORK
      (mkWorld (set_networkConnected true initial_globals) (platform advised_world) [] [] [])
      = Ok S_OK w' /\
    g_networkConnected (globals w') = true /\
    posted w' = [mkMsg 0 WM_NETWORK_STATUS_CHANGE 0 0].
Proof.
  assert (L : live 0 (mkWorld (set_networkConnected true initial_globals)
                              (platform advised_world) [] [] []))
    by (exists 2; reflexivity).
  destruct (flag_lags_behind_message 0 NLM_CONNECTIVITY_IPV4_LOCALNETWORK _ L)
    as (w' & R & P & _ & Stale).
  exists w'. split; [exact R|]. split; [|exact P].
  apply Stale; [discriminate | reflexivity | reflexivity].
Defined.

(** ** The callback on any notification, and on sequences *)

Section Callback.

Local Arguments QualityToRSSI : simpl never.

(** Whatever the notification, the callback ends normally, writes only
    [isSignalWeak] and [lastQuality], and posts at most one message. *)
Lemma callback_frame (n : WLAN_NOTIFICATION_DATA) (pc : option CtxPtr) (w : World) :
  exists w',
    WlanNotificationCallback n pc w = Ok tt w' /\
    platform w' = platform w /\ calls w' = calls w /\
    (exists weak lq,
       globals w' = set_monitorCtx
                      (mkCtx (thresholdDrop (ctx_of w)) (thresholdRecover (ctx_of w)) weak lq)
                      (globals w)) /\
    (posted w' = posted w \/ exists m, posted w' = posted w ++ [m]) /\
    (acts_on n pc = false -> globals w' = globals w /\ posted w' = posted w).
Proof.
  destruct w as [[tid conn nlm cpc cp ev cookie hc [drop rec weak lq]] pf po co ca].
  destruct n as [src code size q].
  unfold WlanNotificationCallback, acts_on, when, ctx_of.
  cbn [NotificationSource NotificationCode dwDataSize pData].
  destruct pc as [[]|].
  - destruct (src =? WLAN_NOTIFICATION_SOURCE_MSM);
    destruct (code =? wlan_notification_msm_signal_quality_change);
    destruct (size >=? sizeof_ULONG);
    destruct (code =? wlan_notification_msm_connected);
    destruct (code =? wlan_notification_msm_disconnected);
    destruct weak; destruct (q <=? drop) eqn:Ed; destruct (q >=? rec) eqn:Er;
    repeat (cbn; rewrite ?Ed, ?Er);
    eexists; (split; [reflexivity|]); cbn;
    repeat split; eauto; try discriminate;
    do 2 eexists; reflexivity.
  - cbn. eexists. split; [reflexivity|]. cbn. repeat split; eauto.
    exists weak, lq. reflexivity.
Qed.

End Callback.

(** X7.  A notification the callback does not act on (a null context,
    a source other than MSM, a code other than signal-quality change, or
    fewer than [sizeof(ULONG)] bytes of data) changes no global and posts
    nothing. *)
Theorem callback_ignores_other_notifications
        (n : WLAN_NOTIFICATION_DATA) (pContext : option CtxPtr) (w : World) :
  acts_on n pContext = false ->
  exists w',
    WlanNotificationCallback n pContext w = Ok tt w' /\
    globals w' = globals w /\ posted w' = posted w /\ platform w' = platform w.
Proof.
  intros H.
  destruct (callback_frame n pContext w) as (w' & R & P & _ & _ & _ & Ign).
  destruct (Ign H) as [G Q]. exists w'. auto.
Qed.

Lemma callback_ignores_other_notifications_witness :
  exists w',
    WlanNotificationCallback
      (mkNotification WLAN_NOTIFICATION_SOURCE_ACM
                      wlan_notification_msm_signal_quality_change 4 10)
      (Some Addr_monitorCtx) initial_world = Ok tt w' /\
    globals w' = initial_globals /\ posted w' = [].
Proof.
  destruct (callback_ignores_other_notifications
              (mkNotification WLAN_NOTIFICATION_SOURCE_ACM
                              wlan_notification_msm_signal_quality_change 4 10)
              (Some Addr_monitorCtx) initial_world eq_refl) as (w' & R & G & P & _).
  exists w'. split; [exact R|]. split; [exact G | exact P].
Defined.

(** X8.  Whatever notification arrives, the callback ends normally, never
    changes the two thresholds nor any global other than [isSignalWeak]
    and [lastQuality], touches no platform resource, and posts at most one
    message. *)
Theorem callback_keeps_thresholds
        (n : WLAN_NOTIFICATION_DATA) (pContext : option CtxPtr) (w : World) :
  exists w',
    WlanNotificationCallback n pContext w = Ok tt w' /\
    thresholdDrop (ctx_of w') = thresholdDrop (ctx_of w) /\
    thresholdRecover (ctx_of w') = thresholdRecover (ctx_of w) /\
    set_monitorCtx (ctx_of w) (globals w') = globals w /\
    platform w' = platform w /\
    (List.length (posted w') <= S (List.length (posted w)))%nat.
Proof.
  destruct (callback_frame n pContext w) as (w' & R & P & _ & (weak & lq & G) & Po & _).
  exists w'. split; [exact R|].
  unfold ctx_of. rewrite G.
  destruct w as [[tid conn nlm cpc cp ev cookie hc ctx] pf po co ca].
  cbn in *. repeat split; auto.
  destruct Po as [-> | [m ->]]; [lia | rewrite length_app; cbn; lia].
Qed.

(** ** Sequences of signal-quality notifications *)

Section Sequences.

Lemma signal_msg_same_thread (w w1 : World) (q : Z) :
  g_mainThreadId (globals w1) = g_mainThreadId (globals w) ->
  signal_msg w1 q = signal_msg w q.
Proof. intros E. unfold signal_msg. rewrite E. reflexivity. Qed.

Lemma notify_chain (q : Z) (w : World) :
  exists w',
    notify q w = Ok tt w' /\
    thresholdDrop (ctx_of w') = thresholdDrop (ctx_of w) /\
    thresholdRecover (ctx_of w') = thresholdRecover (ctx_of w) /\
    g_mainThreadId (globals w') = g_mainThreadId (globals w) /\
    lastQuality (ctx_of w') = q /\
    ((posted w' = posted w /\ isSignalWeak (ctx_of w') = isSignalWeak (ctx_of w) /\
      (if isSignalWeak (ctx_of w) then q >=? thresholdRecover (ctx_of w)
       else q <=? thresholdDrop (ctx_of w)) = false) \/
     (posted w' = posted w ++ [signal_msg w q] /\
      isSignalWeak (ctx_of w') = negb (isSignalWeak (ctx_of w)) /\
      (if isSignalWeak (ctx_of w) then q >=? thresholdRecover (ctx_of w)
       else q <=? thresholdDrop (ctx_of w)) = true)).
Proof.
  destruct (notify_step w sizeof_ULONG q (Z.le_refl _))
    as (w' & R & D & Rc & T & L & St & Wk).
  exists w'. repeat (split; [assumption|]).
  destruct (isSignalWeak (ctx_of w)) eqn:E.
  - specialize (Wk eq_refl). destruct (q >=? thresholdRecover (ctx_of w));
      destruct Wk as [P F]; rewrite P, F; [right|left]; auto.
  - specialize (St eq_refl). destruct (q <=? thresholdDrop (ctx_of w));
      destruct St as [P F]; rewrite P, F; [right|left]; auto.
Qed.

Lemma last_default {A} (l : list A) (a d1 d2 : A) : last (a :: l) d1 = last (a :: l) d2.
Proof. revert a. induction l as [|b l IH]; intros a; [reflexivity|]. apply (IH b). Qed.

End Sequences.


(** X10.  The dead zone: a sequence of qualities that all lie strictly
    between the two thresholds posts nothing and leaves the state as it
    was, whichever state that is. *)
Theorem dead_zone_is_silent (qs : list Z) (w : World) :
  (forall q, In q qs -> thresholdDrop (ctx_of w) < q < thresholdRecover (ctx_of w)) ->
  exists w',
    for_each notify qs w = Ok tt w' /\
    posted w' = posted w /\
    isSignalWeak (ctx_of w') = isSignalWeak (ctx_of w) /\
    lastQuality (ctx_of w') = last qs (lastQuality (ctx_of w)).
Proof.
  revert w. induction qs as [|q qs IH]; intros w Hz.
  - exists w. cbn. auto.
  - destruct (notify_chain q w) as (w1 & R1 & D1 & Rc1 & T1 & L1 & Step).
    assert (Hq : thresholdDrop (ctx_of w) < q < thresholdRecover (ctx_of w))
      by (apply Hz; left; reflexivity).
    destruct Step as [(P1 & S1 & _) | (_ & _ & C1)].
    + destruct (IH w1) as (w' & R & P & S & L).
      { intros x Hx. rewrite D1, Rc1. apply Hz. right. exact Hx. }
      exists w'. cbn [for_each]. unfold bind at 1. rewrite R1.
      split; [exact R|]. rewrite P, P1, S, S1, L, L1.
      repeat split. destruct qs as [|z qs]; [reflexivity|].
      change (last (q :: z :: qs) (lastQuality (ctx_of w)))
        with (last (z :: qs) (lastQuality (ctx_of w))).
      apply last_default.
    + exfalso. destruct (isSignalWeak (ctx_of w)).
      * rewrite Z.geb_leb in C1. apply Z.leb_le in C1. lia.
      * apply Z.leb_le in C1. lia.
Qed.

Lemma dead_zone_is_silent_witness :
  exists w',
    for_each notify [45; 41; 49; 44] initial_world = Ok tt w' /\ posted w' = [].
Proof.
  destruct (dead_zone_is_silent [45; 41; 49; 44] initial_world) as (w' & R & P & _).
  - cbn. intros q [<-|[<-|[<-|[<-|[]]]]]; lia.
  - exists w'. split; [exact R | exact P].
Defined.

(** X11.  With the hysteresis band ([thresholdDrop < thresholdRecover])
    the same quality notified twice in a row posts at most once: the
    second notification posts nothing. *)
Theorem repeated_quality_posts_once (q : Z) (w : World) :
  thresholdDrop (ctx_of w) < thresholdRecover (ctx_of w) ->
  exists w1 w2,
    notify q w = Ok tt w1 /\ notify q w1 = Ok tt w2 /\
    posted w2 = posted w1 /\
    isSignalWeak (ctx_of w2) = isSignalWeak (ctx_of w1).
Proof.
  intros Band.
  destruct (notify_chain q w) as (w1 & R1 & D1 & Rc1 & T1 & _ & Step1).
  destruct (notify_chain q w1) as (w2 & R2 & _ & _ & _ & _ & Step2).
  exists w1, w2. split; [exact R1|]. split; [exact R2|].
  destruct Step2 as [(P2 & S2 & _) | (_ & _ & C2)]; [auto|].
  exfalso. rewrite D1, Rc1 in C2.
  destruct Step1 as [(_ & S1 & C1) | (_ & S1 & C1)]; rewrite S1 in C2;
    destruct (isSignalWeak (ctx_of w)); cbn [negb] in C2;
    rewrite ?Z.geb_leb in *; rewrite ?Z.leb_le, ?Z.leb_gt in *; try lia; congruence.
Qed.

Lemma repeated_quality_posts_once_witness :
  exists w1 w2,
    notify 38 initial_world = Ok tt w1 /\ notify 38 w1 = Ok tt w2 /\
    posted w2 = posted w1.
Proof.
  destruct (repeated_quality_posts_once 38 initial_world) as (w1 & w2 & R1 & R2 & P & _).
  - cbn. lia.
  - exists w1, w2. auto.
Defined.

(** X12.  Without the band the state machine flaps: when
    [thresholdRecover <= q <= thresholdDrop], every notification of [q]
    posts a message and flips the state. *)
Theorem no_band_flaps (q : Z) (w : World) :
  thresholdRecover (ctx_of w) <= q <= thresholdDrop (ctx_of w) ->
  exists w1 w2,
    notify q w = Ok tt w1 /\ notify q w1 = Ok tt w2 /\
    posted w2 = posted w ++ [signal_msg w q; signal_msg w q] /\
    isSignalWeak (ctx_of w1) = negb (isSignalWeak (ctx_of w)) /\
    isSignalWeak (ctx_of w2) = isSignalWeak (ctx_of w).
Proof.
  intros Hq.
  destruct (notify_chain q w) as (w1 & R1 & D1 & Rc1 & T1 & _ & Step1).
  destruct (notify_chain q w1) as (w2 & R2 & _ & _ & _ & _ & Step2).
  rewrite D1, Rc1 in Step2. rewrite (signal_msg_same_thread w w1 q T1) in Step2.
  exists w1, w2. split; [exact R1|]. split; [exact R2|].
  assert (A : (q >=? thresholdRecover (ctx_of w)) = true)
    by (rewrite Z.geb_leb; apply Z.leb_le; lia).
  assert (B : (q <=? thresholdDrop (ctx_of w)) = true) by (apply Z.leb_le; lia).
  rewrite A, B in *.
  destruct Step1 as [(_ & _ & C1) | (P1 & S1 & _)];
    [destruct (isSignalWeak (ctx_of w)); discriminate C1|].
  destruct Step2 as [(_ & _ & C2) | (P2 & S2 & _)];
    [destruct (isSignalWeak (ctx_of w1)); discriminate C2|].
  rewrite P2, P1, S2, S1, <- app_assoc, negb_involutive. auto.
Qed.

Lemma no_band_flaps_witness :
  exists w1 w2,
    notify 45 inverted_world = Ok tt w1 /\ notify 45 w1 = Ok tt w2 /\
    posted w2 = [mkMsg 0 WM_WIFI_SIGNAL_CHANGE 45 (-78); mkMsg 0 WM_WIFI_SIGNAL_CHANGE 45 (-78)].
Proof.
  destruct (no_band_flaps 45 inverted_world) as (w1 & w2 & R1 & R2 & P & _).
  - cbn. lia.
  - exists w1, w2. split; [exact R1|]. split; [exact R2|]. rewrite P. reflexivity.
Defined.

(** ** Start and stop of the connectivity monitor, whatever the platform answers *)

Section StartStop.

Ltac run :=
  cbv beta iota zeta delta
    [bind ret fault when call say modify_globals modify_platform get_globals get_platform
     PostThreadMessage LogInfo LogError LogFunc out_ptr
     NetEvents.new_CNetworkListManagerEvents NetEvents.this_lRef NetEvents.set_this
     NetEvents.AddRef NetEvents.Release NetEvents.QueryInterface
     platform_Advise platform_Unadvise SafeRelease
     set_heap set_advised set_wlan_open set_wlan_notify];
  cbn [globals platform posted console calls heap advised wlan_open wlan_notify fst snd
       g_hClient g_pConnectPoint g_pCPContainer g_pNetworkListManager g_pNetEvents g_dwCookie
       g_mainThreadId g_networkConnected monitorCtx
       set_pConnectPoint set_pCPContainer set_pNetworkListManager set_pNetEvents set_dwCookie
       set_networkConnected
       nth_error NetEvents.store remove_cookie List.length app negb andb].

Ltac arith :=
  rewrite ?Z.eqb_refl;
  change (wrap_int (1 + 1)) with 2;
  change (wrap_int (2 - 1)) with 1;
  change (wrap_int (1 - 1)) with 0;
  change (1 =? 0) with false;
  change (0 =? 0) with true.

Ltac open_idle w H :=
  destruct w as [[tid conn gnlm gcpc gcp gev cookie hc ctx] [hp adv wo wn] po co ca];
  destruct H as (Hnlm & Hcpc & Hcp & Hev & Hhp & Hadv);
  cbn [globals platform heap advised g_pConnectPoint g_pCPContainer
       g_pNetworkListManager g_pNetEvents] in *;
  subst gnlm gcpc gcp gev hp adv.

Lemma StartNetworkMonitor_idle (N : NlmAnswers) (w : World) :
  idle w ->
  exists w',
    StartNetworkMonitor N w = Ok (start_result N) w' /\
    stop_ready w' /\
    posted w' = posted w ++ (if registers N then initial_event N w else []) /\
    (registers N = false -> advised (platform w') = []) /\
    wlan_resources w' = wlan_resources w /\
    monitorCtx (globals w') = monitorCtx (globals w) /\
    g_mainThreadId (globals w') = g_mainThreadId (globals w).
Proof.
  intros H. open_idle w H.
  destruct N as [ci [cc pc] [qi pq] [fc pf] [ad ck] [gc conn']].
  unfold StartNetworkMonitor, start_result, registers, initial_event, stop_ready,
    wlan_resources.
  cbn [a_CoInitializeEx a_CoCreateInstance a_QueryInterface a_FindConnectionPoint
       a_Advise a_GetConnectivity fst snd].
  rewrite !FAILED_SUCCEEDED.
  assert (F : false = false) by reflexivity.
  pose proof F as E1; pose proof F as E2; pose proof F as E3; pose proof F as E4;
    pose proof F as E5; pose proof F as E6; pose proof F as E7.
  clear E1; destruct (SUCCEEDED ci) eqn:E1; [clear E2; destruct (SUCCEEDED cc) eqn:E2;
   [clear E3; destruct (SUCCEEDED qi) eqn:E3;
    [clear E4; destruct (SUCCEEDED fc) eqn:E4;
     [clear E5; destruct (SUCCEEDED ad) eqn:E5;
      [clear E6; destruct (SUCCEEDED gc) eqn:E6;
       [clear E7; destruct (conn' =? NLM_CONNECTIVITY_DISCONNECTED) eqn:E7|]|]|]|]|]|];
    repeat (run; arith; rewrite ?E1, ?E2, ?E3, ?E4, ?E5, ?E6, ?E7, ?PrintConnectivity_run);
    (eexists; split; [reflexivity|]);
    cbn [globals platform posted heap advised wlan_open wlan_notify
         g_hClient g_pConnectPoint g_pNetEvents g_dwCookie g_mainThreadId monitorCtx
         set_networkConnected];
    rewrite ?app_nil_r;
    (split; [first [ left; repeat split; reflexivity
                   | right; left; repeat split; try reflexivity; discriminate
                   | right; right; repeat split; reflexivity ] |]);
    repeat split; try reflexivity; try discriminate.
Qed.

Ltac open_world w :=
  destruct w as [[tid conn gnlm gcpc gcp gev cookie hc ctx] [hp adv wo wn] po co ca];
  cbn [globals platform heap advised wlan_open wlan_notify g_hClient g_pConnectPoint
       g_pCPContainer g_pNetworkListManager g_pNetEvents g_dwCookie] in *.

Lemma StopNetworkMonitor_ready (w : World) :
  stop_ready w ->
  exists w',
    StopNetworkMonitor w = Ok tt w' /\
    released w' /\
    posted w' = posted w /\
    wlan_resources w' = wlan_resources w /\
    monitorCtx (globals w') = monitorCtx (globals w).
Proof.
  intros H. unfold stop_ready in H. open_world w.
  unfold StopNetworkMonitor, released, wlan_resources.
  destruct H as [(Hev & Hhp & Hadv) | [(Hev & Hhp & Hadv & Hcp) | (Hev & Hhp & Hadv)]];
    subst gev hp adv;
    destruct gcp as [cp|]; try congruence;
    destruct gcpc as [cpc|]; destruct gnlm as [nlm|];
    repeat (run; arith);
    (eexists; split; [reflexivity|]);
    cbn [globals platform posted heap advised wlan_open wlan_notify
         g_hClient g_pConnectPoint g_pCPContainer g_pNetworkListManager monitorCtx];
    repeat split; auto.
Qed.

(** [StopNetworkMonitor] when no pointer is held and no sink was made *)
Lemma StopNetworkMonitor_nothing (w : World) :
  g_pNetworkListManager (globals w) = None -> g_pCPContainer (globals w) = None ->
  g_pConnectPoint (globals w) = None -> g_pNetEvents (globals w) = None ->
  StopNetworkMonitor w =
    Ok tt (mkWorld (globals w) (platform w) (posted w)
                   (console w ++ [[Str "[network info] Network monitor stopped."];
                                  [Str "[network info] Program exited safely."]])
                   (calls w ++ [CoUninitialize])).
Proof.
  open_world w. intros -> -> -> ->. unfold StopNetworkMonitor.
  repeat run. rewrite <- app_assoc. reflexivity.
Qed.

(** the calls of a start followed by a stop *)
Lemma start_stop_calls (N : NlmAnswers) (w : World) :
  idle w ->
  exists w' t,
    (_ <- StartNetworkMonitor N ;; StopNetworkMonitor) w = Ok tt w' /\
    calls w' = calls w ++ t /\
    count_calls is_CoInitializeEx t = 1%nat /\
    count_calls is_CoUninitialize t =
      (if SUCCEEDED (a_CoInitializeEx N) && negb (SUCCEEDED (fst (a_CoCreateInstance N)))
       then 2%nat else 1%nat).
Proof.
  intros H. open_idle w H.
  destruct N as [ci [cc pc] [qi pq] [fc pf] [ad ck] [gc conn']].
  unfold StartNetworkMonitor, StopNetworkMonitor.
  cbn [a_CoInitializeEx a_CoCreateInstance a_QueryInterface a_FindConnectionPoint
       a_Advise a_GetConnectivity fst snd].
  rewrite !FAILED_SUCCEEDED.
  assert (F : false = false) by reflexivity.
  pose proof F as E1; pose proof F as E2; pose proof F as E3; pose proof F as E4;
    pose proof F as E5; pose proof F as E6; pose proof F as E7.
  clear E1; destruct (SUCCEEDED ci) eqn:E1; [clear E2; destruct (SUCCEEDED cc) eqn:E2;
   [clear E3; destruct (SUCCEEDED qi) eqn:E3;
    [clear E4; destruct (SUCCEEDED fc) eqn:E4;
     [clear E5; destruct (SUCCEEDED ad) eqn:E5;
      [clear E6; destruct (SUCCEEDED gc) eqn:E6;
       [clear E7; destruct (conn' =? NLM_CONNECTIVITY_DISCONNECTED) eqn:E7|]|]|]|]|]|];
    repeat (run; arith; rewrite ?E1, ?E2, ?E3, ?E4, ?E5, ?E6, ?E7, ?PrintConnectivity_run);
    (eexists; eexists; split; [reflexivity|]);
    cbn [calls]; rewrite <- ?app_assoc; cbn [app];
    (split; [reflexivity|]); split; reflexivity.
Qed.

(** two starts, then one stop *)
Lemma start_start_stop (N1 N2 : NlmAnswers) (w : World) :
  idle w -> registers N1 = true -> registers N2 = true ->
  snd (a_Advise N1) <> snd (a_Advise N2) ->
  exists w' t,
    (_ <- StartNetworkMonitor N1 ;; _ <- StartNetworkMonitor N2 ;; StopNetworkMonitor) w
      = Ok tt w' /\
    advised (platform w') = [(snd (a_Advise N1), 0%nat)] /\
    heap (platform w') = [Live 2; Deleted] /\
    calls w' = calls w ++ t /\
    count_calls is_IUnknown_Release t = 3%nat /\
    count_calls is_unadvise t = 1%nat.
Proof.
  intros H R1 R2 Hck. open_idle w H.
  destruct N1 as [ci [cc pc] [qi pq] [fc pf] [ad ck] [gc conn']].
  destruct N2 as [ci2 [cc2 pc2] [qi2 pq2] [fc2 pf2] [ad2 ck2] [gc2 conn2]].
  unfold registers in R1, R2.
  cbn [a_CoInitializeEx a_CoCreateInstance a_QueryInterface a_FindConnectionPoint
       a_Advise a_GetConnectivity fst snd] in *.
  rewrite !andb_true_iff in R1, R2.
  destruct R1 as [[[[E1 E2] E3] E4] E5]. destruct R2 as [[[[F1 F2] F3] F4] F5].
  apply Z.eqb_neq in Hck.
  unfold StartNetworkMonitor, StopNetworkMonitor.
  cbn [a_CoInitializeEx a_CoCreateInstance a_QueryInterface a_FindConnectionPoint
       a_Advise a_GetConnectivity fst snd].
  rewrite !FAILED_SUCCEEDED.
  assert (F : false = false) by reflexivity.
  pose proof F as E7; pose proof F as F7.
  destruct (SUCCEEDED gc) eqn:E6;
    [clear E7; destruct (conn' =? NLM_CONNECTIVITY_DISCONNECTED) eqn:E7|];
    (destruct (SUCCEEDED gc2) eqn:F6;
     [clear F7; destruct (conn2 =? NLM_CONNECTIVITY_DISCONNECTED) eqn:F7|]);
    repeat (run; arith;
            rewrite ?E1, ?E2, ?E3, ?E4, ?E5, ?E6, ?E7, ?F1, ?F2, ?F3, ?F4, ?F5, ?F6, ?F7,
                    ?Hck, ?PrintConnectivity_run);
    (eexists; eexists; split; [reflexivity|]);
    cbn [platform advised heap calls]; rewrite <- ?app_assoc; cbn [app];
    repeat split; reflexivity.
Qed.

End StartStop.

(** X13.  On a process that holds nothing, [StartNetworkMonitor] ends
    normally whatever the platform answers; it returns 1 only when
    [CoInitializeEx] or [CoCreateInstance] fails and 0 in every other
    case, also when no connection point was found or [Advise] failed;
    it posts nothing unless the registration succeeded, and registers no
    sink unless it did. *)
Theorem StartNetworkMonitor_result (N : NlmAnswers) (w : World) :
  idle w ->
  exists w',
    StartNetworkMonitor N w = Ok (start_result N) w' /\
    posted w' = posted w ++ (if registers N then initial_event N w else []) /\
    (registers N = false -> advised (platform w') = [] /\ posted w' = posted w) /\
    (SUCCEEDED (a_CoInitializeEx N) = true -> SUCCEEDED (fst (a_CoCreateInstance N)) = true ->
     start_result N = 0) /\
    monitorCtx (globals w') = monitorCtx (globals w).
Proof.
  intros H.
  destruct (StartNetworkMonitor_idle N w H) as (w' & R & _ & P & A & _ & C & _).
  exists w'. split; [exact R|]. split; [exact P|]. split; [|split; [|exact C]].
  - intros F. split; [exact (A F)|]. rewrite P, F, app_nil_r. reflexivity.
  - intros E1 E2. unfold start_result. rewrite E1, E2. reflexivity.
Qed.

Lemma StartNetworkMonitor_result_witness :
  exists w',
    StartNetworkMonitor (mkNlm S_OK (S_OK, 1000) (E_NOINTERFACE, 0) (S_OK, 0) (S_OK, 0) (S_OK, 0))
                        initial_world = Ok 0 w' /\
    posted w' = [] /\ advised (platform w') = [].
Proof.
  assert (I : idle initial_world) by (repeat split; reflexivity).
  destruct (StartNetworkMonitor_result
              (mkNlm S_OK (S_OK, 1000) (E_NOINTERFACE, 0) (S_OK, 0) (S_OK, 0) (S_OK, 0))
              initial_world I) as (w' & R & _ & F & _).
  exists w'. split; [exact R|]. destruct (F eq_refl) as [A P]. split; [exact P | exact A].
Defined.

(** X14.  A start followed by a stop on a process that holds nothing
    never faults, whatever the platform answers and however far the start
    got: afterwards every interface pointer is null, no sink is advised
    and no sink is alive, and the stop posted nothing. *)
Theorem start_then_stop_releases (N : NlmAnswers) (w : World) :
  idle w ->
  exists w1 w',
    StartNetworkMonitor N w = Ok (start_result N) w1 /\
    StopNetworkMonitor w1 = Ok tt w' /\
    released w' /\ posted w' = posted w1.
Proof.
  intros H.
  destruct (StartNetworkMonitor_idle N w H) as (w1 & R1 & Rd & _).
  destruct (StopNetworkMonitor_ready w1 Rd) as (w' & R2 & Rl & P & _).
  exists w1, w'. auto.
Qed.

Lemma start_then_stop_releases_witness :
  exists w',
    (_ <- StartNetworkMonitor (mkNlm S_OK (S_OK, 1000) (S_OK, 1001) (S_OK, 1002)
                                     (E_NOINTERFACE, 0) (S_OK, 0)) ;;
     StopNetworkMonitor) initial_world = Ok tt w' /\
    released w'.
Proof.
  assert (I : idle initial_world) by (repeat split; reflexivity).
  destruct (start_then_stop_releases
              (mkNlm S_OK (S_OK, 1000) (S_OK, 1001) (S_OK, 1002) (E_NOINTERFACE, 0) (S_OK, 0))
              initial_world I) as (w1 & w' & R1 & R2 & Rl & _).
  exists w'. split; [|exact Rl]. unfold bind. rewrite R1. exact R2.
Defined.

(** X15.  [StopNetworkMonitor] calls [CoUninitialize] once in every case.
    After a start on a process that holds nothing, the start and the stop
    together call it once, and twice when [CoInitializeEx] succeeded and
    [CoCreateInstance] failed (the start has already called it then);
    [CoInitializeEx] is called once, so the calls pair up only when it
    succeeded and [CoCreateInstance] did too. *)
Theorem CoUninitialize_count (N : NlmAnswers) (w : World) :
  idle w ->
  exists w' t,
    (_ <- StartNetworkMonitor N ;; StopNetworkMonitor) w = Ok tt w' /\
    calls w' = calls w ++ t /\
    count_calls is_CoInitializeEx t = 1%nat /\
    count_calls is_CoUninitialize t =
      (if SUCCEEDED (a_CoInitializeEx N) && negb (SUCCEEDED (fst (a_CoCreateInstance N)))
       then 2%nat else 1%nat).
Proof. intros H. apply start_stop_calls. exact H. Qed.

Lemma CoUninitialize_count_witness :
  exists w' t,
    (_ <- StartNetworkMonitor (mkNlm E_NOINTERFACE (S_OK, 0) (S_OK, 0) (S_OK, 0) (S_OK, 0) (S_OK, 0)) ;;
     StopNetworkMonitor) initial_world = Ok tt w' /\
    calls w' = t /\ count_calls is_CoUninitialize t = 1%nat.
Proof.
  assert (I : idle initial_world) by (repeat split; reflexivity).
  destruct (CoUninitialize_count
              (mkNlm E_NOINTERFACE (S_OK, 0) (S_OK, 0) (S_OK, 0) (S_OK, 0) (S_OK, 0))
              initial_world I) as (w' & t & R & C & _ & U).
  exists w', t. split; [exact R|]. split; [exact C | exact U].
Defined.

(** X16.  When nothing is held ([StopNetworkMonitor] before any start, or
    after a start that stopped at [CoInitializeEx]), the stop changes no
    global and no registration and posts nothing; it still calls
    [CoUninitialize]. *)
Theorem StopNetworkMonitor_nothing_held (w : World) :
  g_pNetworkListManager (globals w) = None -> g_pCPContainer (globals w) = None ->
  g_pConnectPoint (globals w) = None -> g_pNetEvents (globals w) = None ->
  exists w',
    StopNetworkMonitor w = Ok tt w' /\
    globals w' = globals w /\ platform w' = platform w /\ posted w' = posted w /\
    calls w' = calls w ++ [CoUninitialize].
Proof.
  intros H1 H2 H3 H4. rewrite (StopNetworkMonitor_nothing w H1 H2 H3 H4).
  eexists. split; [reflexivity|]. cbn. auto.
Qed.

Lemma StopNetworkMonitor_nothing_held_witness :
  exists w',
    StopNetworkMonitor initial_world = Ok tt w' /\
    globals w' = initial_globals /\ calls w' = [CoUninitialize].
Proof.
  destruct (StopNetworkMonitor_nothing_held initial_world eq_refl eq_refl eq_refl eq_refl)
    as (w' & R & G & _ & _ & C).
  exists w'. split; [exact R|]. split; [exact G | exact C].
Defined.

(** X21.  [StartNetworkMonitor] is not re-entrant: a second successful
    start overwrites the pointers, the sink and the cookie of the first;
    the stop that follows unadvises and destroys the second sink only and
    releases three interface pointers, so the first sink stays advised
    with its two references. *)
Theorem second_start_leaks_first_sink (N1 N2 : NlmAnswers) (w : World) :
  idle w -> registers N1 = true -> registers N2 = true ->
  snd (a_Advise N1) <> snd (a_Advise N2) ->
  exists w' t,
    (_ <- StartNetworkMonitor N1 ;; _ <- StartNetworkMonitor N2 ;; StopNetworkMonitor) w
      = Ok tt w' /\
    advised (platform w') = [(snd (a_Advise N1), 0%nat)] /\
    heap (platform w') = [Live 2; Deleted] /\
    calls w' = calls w ++ t /\
    count_calls is_IUnknown_Release t = 3%nat /\
    count_calls is_unadvise t = 1%nat.
Proof. apply start_start_stop. Qed.

Lemma second_start_leaks_first_sink_witness :
  exists w',
    (_ <- StartNetworkMonitor nlm_ok ;;
     _ <- StartNetworkMonitor (mkNlm S_OK (S_OK, 1010) (S_OK, 1011) (S_OK, 1012) (S_OK, 8)
                                     (S_OK, NLM_CONNECTIVITY_IPV4_INTERNET)) ;;
     StopNetworkMonitor) initial_world = Ok tt w' /\
    advised (platform w') = [(7, 0%nat)].
Proof.
  assert (I : idle initial_world) by (repeat split; reflexivity).
  destruct (second_start_leaks_first_sink nlm_ok
              (mkNlm S_OK (S_OK, 1010) (S_OK, 1011) (S_OK, 1012) (S_OK, 8)
                     (S_OK, NLM_CONNECTIVITY_IPV4_INTERNET))
              initial_world I eq_refl eq_refl) as (w' & t & R & A & _).
  - cbn. lia.
  - exists w'. split; [exact R | exact A].
Defined.

(** ** Start and stop of the wireless monitor *)

Section Wlan.

Ltac run :=
  cbv beta iota zeta delta
    [bind ret fault when call say modify_globals modify_platform get_globals get_platform
     PostThreadMessage LogInfo LogError LogFunc
     get_monitorCtx modify_monitorCtx is_open
     platform_WlanOpenHandle platform_WlanRegisterNotification platform_WlanCloseHandle
     set_heap set_advised set_wlan_open set_wlan_notify];
  cbn [globals platform posted console calls heap advised wlan_open wlan_notify fst snd
       g_hClient set_hClient monitorCtx set_monitorCtx set_isSignalWeak set_lastQuality
       thresholdDrop thresholdRecover isSignalWeak lastQuality g_mainThreadId
       g_pConnectPoint g_pCPContainer g_pNetworkListManager g_pNetEvents g_dwCookie
       existsb filter orb andb negb].

Ltac consts :=
  rewrite ?Z.eqb_refl;
  change (ERROR_SUCCESS =? ERROR_SUCCESS) with true;
  change (WLAN_NOTIFICATION_SOURCE_MSM =? WLAN_NOTIFICATION_SOURCE_NONE) with false;
  change (WLAN_NOTIFICATION_SOURCE_NONE =? WLAN_NOTIFICATION_SOURCE_NONE) with true.

Ltac open_world w :=
  destruct w as [[tid conn gnlm gcpc gcp gev cookie hc ctx] [hp adv wo wn] po co ca];
  cbn [globals platform heap advised wlan_open wlan_notify g_hClient g_pConnectPoint
       g_pCPContainer g_pNetworkListManager g_pNetEvents g_dwCookie] in *.

Ltac known :=
  repeat match goal with
         | E : ?b = true |- context [?b] => rewrite E
         | E : ?b = false |- context [?b] => rewrite E
         end.

Ltac prune := repeat (run; consts; known).

Lemma StartWlanMonitor_idle (W : WlanAnswers) (w : World) :
  wlan_idle w ->
  exists w',
    StartWlanMonitor W w = Ok (wlan_start_result W) w' /\
    wlan_ready w' /\
    nlm_resources w' = nlm_resources w /\
    posted w' = posted w /\
    (wlan_start_result W = 0 ->
     g_hClient (globals w') = Some (snd (a_WlanOpenHandle W)) /\
     wlan_open (platform w') = [snd (a_WlanOpenHandle W)] /\
     wlan_notify (platform w')
       = Some (snd (a_WlanOpenHandle W), WLAN_NOTIFICATION_SOURCE_MSM)) /\
    (fst (a_WlanOpenHandle W) <> ERROR_SUCCESS ->
     wlan_resources w' = wlan_resources w /\ calls w' = calls w ++ [WlanOpenHandle]) /\
    (fst (a_WlanOpenHandle W) = ERROR_SUCCESS ->
     a_WlanRegisterNotification W <> ERROR_SUCCESS ->
     g_hClient (globals w') = Some (snd (a_WlanOpenHandle W)) /\
     wlan_open (platform w') = [] /\ wlan_notify (platform w') = None /\
     last (calls w') WlanOpenHandle = WlanCloseHandle (Some (snd (a_WlanOpenHandle W)))).
Proof.
  intros H. unfold wlan_idle in H. open_world w. destruct H as [Hwo Hwn]. subst wo wn.
  destruct W as [[ro h] [re n] [rq [st q]] rr].
  destruct ctx as [drop rec weak lq].
  unfold StartWlanMonitor, wlan_start_result, wlan_ready, wlan_idle, nlm_resources,
    wlan_resources.
  cbn [a_WlanOpenHandle a_WlanEnumInterfaces a_WlanQueryInterface a_WlanRegisterNotification
       fst snd].
  prune.
  destruct (ro =? ERROR_SUCCESS) eqn:Ero; prune;
    [ destruct (rr =? ERROR_SUCCESS) eqn:Err; prune;
      (destruct ((re =? ERROR_SUCCESS) && (n >? 0)) eqn:Ec; prune;
       [ destruct (rq =? ERROR_SUCCESS) eqn:Erq; prune;
         [ destruct (st =? wlan_interface_state_connected) eqn:Est; prune;
           [ destruct (q <=? drop) eqn:Eq; prune | ] | ] | ]) | ];
    (eexists; split; [reflexivity|]);
    cbn [globals platform posted console calls heap advised wlan_open wlan_notify
         g_hClient g_pConnectPoint g_pCPContainer g_pNetworkListManager g_pNetEvents
         g_dwCookie];
    rewrite ?Z.eqb_eq, ?Z.eqb_neq in *;
    (split; [first [ left; split; reflexivity | right; eexists; repeat split; reflexivity ] |]);
    repeat split; try reflexivity; try discriminate; try congruence;
    try apply last_last.
Qed.

Lemma StopWlanMonitor_ready (w : World) :
  wlan_ready w ->
  exists w',
    StopWlanMonitor w = Ok tt w' /\
    wlan_idle w' /\
    nlm_resources w' = nlm_resources w /\ globals w' = globals w /\ posted w' = posted w.
Proof.
  intros H. unfold wlan_ready, wlan_idle in H. open_world w.
  unfold StopWlanMonitor, wlan_idle, nlm_resources.
  destruct H as [[Hwo Hwn] | (h & Hh & Hwo & Hwn)]; subst.
  - destruct hc as [h|]; repeat (run; consts);
      (eexists; split; [reflexivity|]); cbn; auto.
  - repeat (run; consts). eexists; split; [reflexivity|]. cbn. auto.
Qed.

Lemma existsb_filter_out (h : Z) (l : list Z) :
  existsb (Z.eqb h) (filter (fun x => negb (x =? h)) l) = false.
Proof.
  induction l as [|a l IH]; cbn; [reflexivity|].
  destruct (Z.eqb_spec a h) as [->|Hne]; cbn; [exact IH|].
  rewrite IH, orb_false_r. apply Z.eqb_neq. congruence.
Qed.

(** [StopWlanMonitor] on any world *)
Lemma StopWlanMonitor_any (w : World) :
  exists w',
    StopWlanMonitor w = Ok tt w' /\
    is_open (g_hClient (globals w')) (platform w') = false /\
    globals w' = globals w /\ posted w' = posted w /\
    heap (platform w') = heap (platform w) /\ advised (platform w') = advised (platform w).
Proof.
  open_world w. unfold StopWlanMonitor.
  destruct hc as [h|].
  - destruct (existsb (Z.eqb h) wo) eqn:Eo;
      repeat (run; consts; rewrite ?Eo);
      (eexists; split; [reflexivity|]); cbn [globals platform posted heap advised g_hClient];
      unfold is_open; cbn [wlan_open]; repeat split; auto using existsb_filter_out.
  - repeat (run; consts). eexists; split; [reflexivity|]. cbn. auto.
Qed.

(** a stop on a world whose handle is not open changes no resource *)
Lemma StopWlanMonitor_closed (w : World) :
  is_open (g_hClient (globals w)) (platform w) = false ->
  exists w',
    StopWlanMonitor w = Ok tt w' /\
    globals w' = globals w /\ platform w' = platform w /\ posted w' = posted w.
Proof.
  open_world w. unfold StopWlanMonitor, is_open. cbn [wlan_open]. intros Eo.
  destruct hc as [h|];
    repeat (run; consts; rewrite ?Eo);
    (eexists; split; [reflexivity|]); cbn; auto.
Qed.

End Wlan.

(** X17.  [StartWlanMonitor] leaves no handle open when it fails: if the
    handle cannot be opened nothing else is called and nothing is held;
    if the registration fails after the handle was opened, the handle is
    closed again as the last call, while [g_hClient] keeps its value. *)
Theorem StartWlanMonitor_failure_closes_handle (W : WlanAnswers) (w : World) :
  wlan_idle w -> wlan_start_result W <> 0 ->
  exists w',
    StartWlanMonitor W w = Ok 1 w' /\
    wlan_open (platform w') = [] /\ wlan_notify (platform w') = None /\
    posted w' = posted w /\
    (fst (a_WlanOpenHandle W) <> ERROR_SUCCESS ->
     g_hClient (globals w') = g_hClient (globals w) /\ calls w' = calls w ++ [WlanOpenHandle]) /\
    (fst (a_WlanOpenHandle W) = ERROR_SUCCESS ->
     g_hClient (globals w') = Some (snd (a_WlanOpenHandle W)) /\
     last (calls w') WlanOpenHandle = WlanCloseHandle (Some (snd (a_WlanOpenHandle W)))).
Proof.
  intros I F.
  destruct (StartWlanMonitor_idle W w I) as (w' & R & _ & _ & P & _ & NoOpen & NoReg).
  assert (R1 : wlan_start_result W = 1)
    by (unfold wlan_start_result in *; destruct (_ && _); congruence).
  rewrite R1 in R. exists w'. split; [exact R|].
  destruct I as [Io In].
  destruct (Z.eq_dec (fst (a_WlanOpenHandle W)) ERROR_SUCCESS) as [Eo|Eo].
  - assert (Er : a_WlanRegisterNotification W <> ERROR_SUCCESS).
    { intros Er. unfold wlan_start_result in F. rewrite Eo, Er in F. apply F. reflexivity. }
    destruct (NoReg Eo Er) as (Gh & Wo & Wn & L).
    repeat split; auto; contradiction.
  - destruct (NoOpen Eo) as [Res C]. unfold wlan_resources in Res.
    injection Res as Gh Wo Wn. rewrite Wo, Wn.
    repeat split; auto; contradiction.
Qed.

Lemma StartWlanMonitor_failure_closes_handle_witness :
  exists w',
    StartWlanMonitor (mkWlan (ERROR_SUCCESS, 2000) (ERROR_SUCCESS, 1)
                             (ERROR_SUCCESS, (wlan_interface_state_connected, 45))
                             ERROR_INVALID_HANDLE) initial_world = Ok 1 w' /\
    wlan_open (platform w') = [] /\ g_hClient (globals w') = Some 2000.
Proof.
  assert (I : wlan_idle initial_world) by (split; reflexivity).
  destruct (StartWlanMonitor_failure_closes_handle
              (mkWlan (ERROR_SUCCESS, 2000) (ERROR_SUCCESS, 1)
                      (ERROR_SUCCESS, (wlan_interface_state_connected, 45))
                      ERROR_INVALID_HANDLE) initial_world I)
    as (w' & R & Wo & _ & _ & _ & Closed); [discriminate|].
  exists w'. split; [exact R|]. split; [exact Wo|]. apply Closed. reflexivity.
Defined.

(** X18.  [StopWlanMonitor] never faults, in any state: it posts nothing,
    changes no global and no sink, and leaves the handle of [g_hClient]
    not open.  A second call changes nothing more. *)
Theorem StopWlanMonitor_total_idempotent (w : World) :
  exists w1 w2,
    StopWlanMonitor w = Ok tt w1 /\
    is_open (g_hClient (globals w1)) (platform w1) = false /\
    globals w1 = globals w /\ posted w1 = posted w /\
    heap (platform w1) = heap (platform w) /\ advised (platform w1) = advised (platform w) /\
    StopWlanMonitor w1 = Ok tt w2 /\
    globals w2 = globals w1 /\ platform w2 = platform w1 /\ posted w2 = posted w1.
Proof.
  destruct (StopWlanMonitor_any w) as (w1 & R1 & Cl & G & P & Hp & Ad).
  destruct (StopWlanMonitor_closed w1 Cl) as (w2 & R2 & G2 & P2 & Po2).
  exists w1, w2. repeat split; assumption.
Qed.

(** ** The message loop and the whole of [main] *)

Section MainLoop.

Lemma stop_ready_resources (w w' : World) :
  nlm_resources w' = nlm_resources w -> stop_ready w -> stop_ready w'.
Proof.
  unfold nlm_resources, stop_ready. intros E.
  injection E as E1 E2 E3 E4 E5 E6 E7. rewrite E3, E4, E5, E6, E7. auto.
Qed.

Lemma wlan_ready_resources (w w' : World) :
  wlan_resources w' = wlan_resources w -> wlan_ready w -> wlan_ready w'.
Proof.
  unfold wlan_resources, wlan_ready, wlan_idle. intros E.
  injection E as E1 E2 E3. rewrite E1, E2, E3. auto.
Qed.

Lemma released_resources (w w' : World) :
  nlm_resources w' = nlm_resources w -> released w -> released w'.
Proof.
  unfold nlm_resources, released. intros E.
  injection E as E1 E2 E3 E4 E5 E6 E7. rewrite E1, E2, E3, E6, E7. auto.
Qed.

Ltac open_world w :=
  destruct w as [[tid conn gnlm gcpc gcp gev cookie hc ctx] [hp adv wo wn] po co ca];
  cbn [globals platform heap advised wlan_open wlan_notify g_hClient g_pConnectPoint
       g_pCPContainer g_pNetworkListManager g_pNetEvents g_dwCookie] in *.

Lemma deliver_connectivity (c : Z) (w : World) :
  stop_ready w ->
  exists w',
    deliver (NlmConnectivity c) w = Ok tt w' /\
    nlm_resources w' = nlm_resources w /\ wlan_resources w' = wlan_resources w /\
    monitorCtx (globals w') = monitorCtx (globals w).
Proof.
  intros H. unfold stop_ready in H. open_world w.
  unfold deliver, ConnectivityChanged, NetEvents.this_lRef, nlm_resources, wlan_resources.
  destruct H as [(Hev & Hhp & Hadv) | [(Hev & Hhp & Hadv & Hcp) | (Hev & Hhp & Hadv)]];
    subst gev hp adv;
    cbv beta iota zeta delta [bind ret get_platform for_each platform advised heap snd nth_error];
    rewrite ?PrintConnectivity_run, ?sendNetworkStatusMessage_run;
    (eexists; split; [reflexivity|]); cbn; auto.
Qed.

Lemma deliver_wlan (n : WLAN_NOTIFICATION_DATA) (w : World) :
  exists w',
    deliver (WlanNotification n) w = Ok tt w' /\
    nlm_resources w' = nlm_resources w /\ wlan_resources w' = wlan_resources w /\
    thresholdDrop (ctx_of w') = thresholdDrop (ctx_of w) /\
    thresholdRecover (ctx_of w') = thresholdRecover (ctx_of w).
Proof.
  unfold deliver, bind, get_platform.
  destruct (wlan_notify (platform w)) as [[h source]|].
  - unfold when. destruct (negb _).
    + destruct (callback_frame n (Some Addr_monitorCtx) w)
        as (w' & R & P & _ & (weak & lq & G) & _).
      exists w'. split; [exact R|].
      unfold nlm_resources, wlan_resources, ctx_of. rewrite P, G.
      destruct w as [[tid conn gnlm gcpc gcp gev cookie hc ctx] pf po co ca]. cbn. auto.
    + exists w. auto.
  - exists w. auto.
Qed.

Lemma deliver_ready (e : PlatformEvent) (w : World) :
  stop_ready w ->
  exists w',
    deliver e w = Ok tt w' /\
    nlm_resources w' = nlm_resources w /\ wlan_resources w' = wlan_resources w /\
    thresholdDrop (ctx_of w') = thresholdDrop (ctx_of w) /\
    thresholdRecover (ctx_of w') = thresholdRecover (ctx_of w).
Proof.
  intros H. destruct e as [c|n].
  - destruct (deliver_connectivity c w H) as (w' & R & A & B & C).
    exists w'. unfold ctx_of. rewrite C. auto.
  - apply deliver_wlan.
Qed.

Lemma handle_messages (l : list Msg) (w : World) :
  exists w',
    for_each handle_message l w = Ok tt w' /\
    globals w' = globals w /\ platform w' = platform w /\ posted w' = posted w.
Proof.
  revert w. induction l as [|m l IH]; intros w.
  - exists w. auto.
  - cbn [for_each]. unfold bind at 1.
    assert (S : exists w1, handle_message m w = Ok tt w1 /\ globals w1 = globals w /\
                           platform w1 = platform w /\ posted w1 = posted w).
    { unfold handle_message.
      destruct (message m =? WM_NETWORK_STATUS_CHANGE);
        [|destruct (message m =? WM_WIFI_SIGNAL_CHANGE)];
        eexists; (split; [reflexivity|]); cbn; auto. }
    destruct S as (w1 & R1 & G1 & P1 & Q1). rewrite R1.
    destruct (IH w1) as (w' & R & G & P & Q). exists w'.
    rewrite G, P, Q. auto.
Qed.

Lemma pump_from_frame (k : nat) (w : World) :
  exists w',
    pump_from k w = Ok tt w' /\
    globals w' = globals w /\ platform w' = platform w /\ posted w' = posted w.
Proof. unfold pump_from. apply handle_messages. Qed.

Lemma same_globals_resources (w w' : World) :
  globals w' = globals w -> platform w' = platform w ->
  nlm_resources w' = nlm_resources w /\ wlan_resources w' = wlan_resources w /\
  ctx_of w' = ctx_of w.
Proof.
  intros G P. unfold nlm_resources, wlan_resources, ctx_of. rewrite G, P. auto.
Qed.

Lemma events_loop (events : list PlatformEvent) (w : World) :
  stop_ready w ->
  exists w',
    for_each (fun e => fun w => (deliver e ;; pump_from (List.length (posted w))) w) events w
      = Ok tt w' /\
    nlm_resources w' = nlm_resources w /\ wlan_resources w' = wlan_resources w /\
    thresholdDrop (ctx_of w') = thresholdDrop (ctx_of w) /\
    thresholdRecover (ctx_of w') = thresholdRecover (ctx_of w).
Proof.
  revert w. induction events as [|e events IH]; intros w H.
  - exists w. auto.
  - cbn [for_each]. unfold bind at 1. unfold bind at 1.
    destruct (deliver_ready e w H) as (w1 & R1 & A1 & B1 & C1 & D1). rewrite R1.
    destruct (pump_from_frame (List.length (posted w)) w1) as (w2 & R2 & G2 & P2 & _).
    rewrite R2.
    destruct (same_globals_resources w1 w2 G2 P2) as (A2 & B2 & C2).
    destruct (IH w2) as (w' & R & A & B & C & D).
    { apply (stop_ready_resources w). rewrite A2. exact A1. exact H. }
    exists w'. split; [exact R|].
    rewrite A, A2, A1, B, B2, B1, C, D, C2, C1, D1. auto.
Qed.

Lemma message_loop_ready (events : list PlatformEvent) (w : World) :
  stop_ready w ->
  exists w',
    message_loop events w = Ok tt w' /\
    nlm_resources w' = nlm_resources w /\ wlan_resources w' = wlan_resources w /\
    thresholdDrop (ctx_of w') = thresholdDrop (ctx_of w) /\
    thresholdRecover (ctx_of w') = thresholdRecover (ctx_of w).
Proof.
  intros H. unfold message_loop. unfold bind at 1.
  destruct (pump_from_frame 0 w) as (w0 & R0 & G0 & P0 & _). rewrite R0.
  destruct (same_globals_resources w w0 G0 P0) as (A0 & B0 & C0).
  destruct (events_loop events w0) as (w' & R & A & B & C & D).
  { apply (stop_ready_resources w); assumption. }
  exists w'. split; [exact R|]. rewrite A, A0, B, B0, C, D, C0. auto.
Qed.

End MainLoop.

(** X19.  While the message loop runs, no notification, of either kind
    and in any number, makes the program fault or changes what it holds:
    the interface pointers, the sink and its reference count, the cookie,
    the wireless handle and the registrations are the same at the end, and
    so are the two thresholds. *)
Theorem message_loop_keeps_resources (events : list PlatformEvent) (w : World) :
  stop_ready w ->
  exists w',
    message_loop events w = Ok tt w' /\
    nlm_resources w' = nlm_resources w /\ wlan_resources w' = wlan_resources w /\
    thresholdDrop (ctx_of w') = thresholdDrop (ctx_of w) /\
    thresholdRecover (ctx_of w') = thresholdRecover (ctx_of w).
Proof. apply message_loop_ready. Qed.

Lemma message_loop_keeps_resources_witness :
  exists w',
    message_loop [NlmConnectivity NLM_CONNECTIVITY_DISCONNECTED;
                  WlanNotification (quality_notification 4 12)] started_world = Ok tt w' /\
    nlm_resources w' = nlm_resources started_world.
Proof.
  assert (H : stop_ready started_world).
  { right; left. repeat split; try (vm_compute; reflexivity).
    vm_compute. discriminate. }
  destruct (message_loop_keeps_resources
              [NlmConnectivity NLM_CONNECTIVITY_DISCONNECTED;
               WlanNotification (quality_notification 4 12)] started_world H)
    as (w' & R & A & _).
  exists w'. split; [exact R | exact A].
Defined.

(** X20.  [main] never faults and always ends with 0, whatever the
    platform answers to the two starts and whatever notifications arrive
    in between; when it ends every interface pointer is null, no sink is
    advised, no sink is alive, no wireless handle is open and no wireless
    notification is registered; the thresholds are still 40 and 50. *)
Theorem main_ends_clean (tid : Z) (N : NlmAnswers) (W : WlanAnswers)
                        (events : list PlatformEvent) :
  exists w',
    main tid N W events initial_world = Ok 0 w' /\
    released w' /\ wlan_idle w' /\
    thresholdDrop (ctx_of w') = 40 /\ thresholdRecover (ctx_of w') = 50.
Proof.
  unfold main.
  set (w0 := mkWorld (set_mainThreadId tid initial_globals) (platform initial_world) []
                     [[Str "thread ID: "; Num tid]] []).
  assert (I0 : idle w0) by (repeat split; reflexivity).
  assert (J0 : wlan_idle w0) by (split; reflexivity).
  change ((modify_globals (set_mainThreadId tid);;
           say [Str "thread ID: "; Num tid];;
           _ <- StartNetworkMonitor N;;
           _ <- StartWlanMonitor W;;
           message_loop events;; StopNetworkMonitor;; StopWlanMonitor;; ret 0) initial_world)
    with ((_ <- StartNetworkMonitor N;;
           _ <- StartWlanMonitor W;;
           message_loop events;; StopNetworkMonitor;; StopWlanMonitor;; ret 0) w0).
  destruct (StartNetworkMonitor_idle N w0 I0) as (w1 & R1 & Rd1 & _ & _ & Wl1 & C1 & _).
  unfold bind at 1. rewrite R1.
  assert (J1 : wlan_idle w1).
  { unfold wlan_resources in Wl1. injection Wl1 as _ E2 E3.
    unfold wlan_idle. rewrite E2, E3. exact J0. }
  destruct (StartWlanMonitor_idle W w1 J1) as (w2 & R2 & Wr2 & Nr2 & _).
  destruct (StartWlanMonitor_run W w1) as (w2' & R2' & D2 & Rc2 & _).
  rewrite R2 in R2'. injection R2' as <-.
  unfold bind at 1. rewrite R2.
  assert (Rd2 : stop_ready w2) by (apply (stop_ready_resources w1); assumption).
  destruct (message_loop_ready events w2 Rd2) as (w3 & R3 & Nr3 & Wr3 & D3 & Rc3).
  unfold bind at 1. rewrite R3.
  assert (Rd3 : stop_ready w3) by (apply (stop_ready_resources w2); assumption).
  destruct (StopNetworkMonitor_ready w3 Rd3) as (w4 & R4 & Rl4 & _ & Wr4 & C4).
  unfold bind at 1. rewrite R4.
  assert (J4 : wlan_ready w4).
  { apply (wlan_ready_resources w3); [exact Wr4|].
    apply (wlan_ready_resources w2); assumption. }
  destruct (StopWlanMonitor_ready w4 J4) as (w5 & R5 & J5 & Nr5 & G5 & _).
  unfold bind at 1. rewrite R5.
  exists w5. split; [reflexivity|].
  split; [apply (released_resources w4); assumption|].
  split; [exact J5|].
  unfold ctx_of in *. rewrite G5, C4, D3, Rc3, D2, Rc2, C1. split; reflexivity.
Qed.
